(** * dbbackup management command: backup pipeline and retention cleanup

    A shallow embedding of [dbbackup/management/commands/dbbackup.py]
    ([Command.handle], [Command._save_new_backup],
    [Command._cleanup_old_backups], [Command.write_local_file]) together with
    the properties of the backup pipeline and of the retention pass.

    The command talks to collaborators whose code lives in other modules of
    the package (storage, connector, dbcommands, utils) and to the Python
    runtime (re, datetime, the local file system).  They are taken as an
    environment [Env]; every call to one of them that has an effect is
    recorded in a trace of [event]s, so that "is attempted", "is handed to
    the write step" and "is deleted" are statements about that trace. *)

From Stdlib Require Import List String Ascii ZArith Bool Lia Permutation Sorted.
From Stdlib Require Import Decimal DecimalString DecimalNat.
Import ListNotations.

Local Open Scope string_scope.
Local Open Scope list_scope.

(** ** The pieces of the Python runtime the command uses *)

Module Py.

(** [l[0:stop]] for a list [l]: a negative [stop] counts from the end, and
    the bound is clamped to the list. *)
Definition slice_to {A : Type} (l : list A) (stop : Z) : list A :=
  let len := Z.of_nat (List.length l) in
  let stop' := if (stop <? 0)%Z
               then Z.max (stop + len) 0
               else Z.min stop len in
  firstn (Z.to_nat stop') l.

(** [sorted] on a list of strings: ascending in the order of [str], which
    compares character codes from the left. *)
Fixpoint insert (x : string) (l : list string) : list string :=
  match l with
  | [] => [x]
  | y :: l' => if String.leb x y then x :: l else y :: insert x l'
  end.

Definition sorted (l : list string) : list string :=
  fold_right insert [] l.

(** [os.path.basename]: what follows the last slash. *)
Fixpoint basename (p : string) : string :=
  match p with
  | EmptyString => EmptyString
  | String c rest =>
      if Ascii.eqb c "/" then basename rest
      else match String.index 0 "/" rest with
           | Some _ => basename rest
           | None => p
           end
  end.

(** [needle in hay] on strings. *)
Fixpoint contains (needle hay : string) : bool :=
  String.prefix needle hay ||
  match hay with
  | EmptyString => false
  | String _ rest => contains needle rest
  end.

(** [datetime.datetime]. *)
Record datetime : Set := mk_datetime {
  year : nat; month : nat; day : nat;
  hour : nat; minute : nat; second : nat }.

Definition decimal (n : nat) : string :=
  NilZero.string_of_uint (Nat.to_uint n).

(** [dt.strftime("%d")]: the day of the month on two digits. *)
Definition strftime_d (dt : datetime) : string :=
  if (day dt <? 10)%nat then String "0" (decimal (day dt)) else decimal (day dt).

(** [int(s)] on a string of decimal digits (leading zeros allowed);
    [None] stands for the [ValueError] of any other string. *)
Definition int (s : string) : option Z :=
  match NilZero.uint_of_string s with
  | Some d => Some (Z.of_nat (Nat.of_uint d))
  | None => None
  end.

End Py.

(** ** Exceptions, outcomes and the trace of collaborator calls *)

(** The exceptions that reach or leave the command. *)
Inductive exn : Type :=
| StorageError (msg : string)   (* storage.base.StorageError *)
| CommandError (msg : string)   (* django's CommandError, built from a StorageError *)
| IndexError                    (* indexing an empty list *)
| ValueError                    (* strptime or int on a string they reject *)
| KeyError (key : string)       (* a missing dictionary key *)
| OtherError (what : string).   (* anything else a collaborator raises *)

Inductive outcome (A : Type) : Type :=
| Ok (a : A)
| Raise (e : exn).
Arguments Ok {A} a.
Arguments Raise {A} e.

(** The content of a (temporary) file object. *)
Definition stream : Type := list Byte.byte.

(** One entry per call that leaves the command: logger, connector,
    transform stages, storage, local file system and [utils.handle_size]. *)
Inductive event : Type :=
| LogInfo (fmt : string) (args : list string)
| CreateDump
| CompressFile (inputfile : stream) (filename : string)
| EncryptFile (inputfile : stream) (filename : string)
| WriteFile (outputfile : stream) (filename : string)
| WriteLocalFile (outputfile : stream) (path : string)
| ListDirectory
| DeleteFile (filepath : string)
| HandleSize (filehandle : stream).

(** A call to a collaborator: it may read and change the world outside the
    process, and it returns or raises. *)
Definition ext (World A : Type) : Type := World -> outcome A * World.

(** ** The collaborators *)

(** An entry of [settings.DATABASES]. *)
Record Database : Type := { NAME : string; ENGINE : string }.

(** [storage.base.BaseStorage], as far as the command uses it. *)
Module Storage.
Record t (World : Type) : Type := {
  name : string;
  backup_dir : string;
  write_file : stream -> string -> ext World unit;
  list_directory : ext World (list string);
  delete_file : string -> ext World unit }.
Arguments name {World}.
Arguments backup_dir {World}.
Arguments write_file {World}.
Arguments list_directory {World}.
Arguments delete_file {World}.
End Storage.

(** The connector returned by [db.get_connector]. *)
Module Connector.
Record t (World : Type) : Type := { create_dump : ext World stream }.
Arguments create_dump {World}.
End Connector.

(** [dbcommands.DBCommands] and [dbcommands.MongoDBCommands], as far as the
    command uses them.  [filename] reads the clock. *)
Module DBCommandsT.
Record t (World : Type) : Type := {
  filename : option string -> ext World string;
  filter_filepaths : list string -> list string;
  filename_match : option string -> string -> string }.
Arguments filename {World}.
Arguments filter_filepaths {World}.
Arguments filename_match {World}.
End DBCommandsT.

(** Everything the command module imports or reads from settings. *)
Record Env (World : Type) : Type := {
  (* django.conf.settings.DATABASES *)
  settings_DATABASES : list (string * Database);
  (* dbbackup.settings *)
  CLEANUP_KEEP : Z;
  DATE_FORMAT : string;
  DATABASES : list string;
  (* BaseStorage.storage_factory(), get_connector, the dbcommands classes *)
  storage_factory : Storage.t World;
  get_connector : string -> Connector.t World;
  DBCommands : Database -> DBCommandsT.t World;
  MongoDBCommands : Database -> DBCommandsT.t World;
  (* utils: the two transform stages and handle_size, which works on the
     file object and returns its size as text *)
  compress_stream : stream -> ext World stream;
  compress_suffix : string;
  encrypt_stream : stream -> ext World stream;
  encrypt_suffix : string;
  handle_size : stream -> ext World string;
  (* re.findall(pattern, string) and datetime.strptime(string, format) *)
  re_findall : string -> string -> list string;
  strptime : string -> string -> option Py.datetime;
  (* open(path, 'wb') followed by copyfileobj *)
  copy_to_path : stream -> string -> ext World unit }.
Arguments settings_DATABASES {World}.
Arguments CLEANUP_KEEP {World}.
Arguments DATE_FORMAT {World}.
Arguments DATABASES {World}.
Arguments storage_factory {World}.
Arguments get_connector {World}.
Arguments DBCommands {World}.
Arguments MongoDBCommands {World}.
Arguments compress_stream {World}.
Arguments compress_suffix {World}.
Arguments encrypt_stream {World}.
Arguments encrypt_suffix {World}.
Arguments handle_size {World}.
Arguments re_findall {World}.
Arguments strptime {World}.
Arguments copy_to_path {World}.

(** The keyword arguments of [handle]. *)
Module Options.
Record t : Type := {
  verbosity : Z;
  quiet : bool;
  clean : bool;
  database : option string;
  servername : option string;
  compress : bool;
  encrypt : bool;
  output_filename : option string;
  output_path : option string }.
End Options.

(** The attributes of the command object ([self]) that the methods read. *)
Module Self.
Record t (World : Type) : Type := {
  verbosity : Z;
  quiet : bool;
  clean : bool;
  clean_keep : Z;
  database : option string;
  servername : option string;
  compress : bool;
  encrypt : bool;
  filename : option string;
  path : option string;
  storage : Storage.t World;
  dbcommands : DBCommandsT.t World;
  connector : Connector.t World }.
Arguments verbosity {World}.
Arguments quiet {World}.
Arguments clean {World}.
Arguments clean_keep {World}.
Arguments database {World}.
Arguments servername {World}.
Arguments compress {World}.
Arguments encrypt {World}.
Arguments filename {World}.
Arguments path {World}.
Arguments storage {World}.
Arguments dbcommands {World}.
Arguments connector {World}.
End Self.

(** ** Computations: world passing, exceptions and the trace *)

Definition M (World A : Type) : Type :=
  World -> outcome A * World * list event.

Section Monad.
Context {World : Type}.

Definition ret {A : Type} (a : A) : M World A :=
  fun w => (Ok a, w, []).

Definition raise {A : Type} (e : exn) : M World A :=
  fun w => (Raise e, w, []).

Definition bind {A B : Type} (m : M World A) (k : A -> M World B)
  : M World B :=
  fun w =>
    match m w with
    | (Ok a, w1, t1) => let '(r, w2, t2) := k a w1 in (r, w2, t1 ++ t2)
    | (Raise e, w1, t1) => (Raise e, w1, t1)
    end.

(** A collaborator call that the trace records: the entry is written when
    the call is made, whatever its outcome. *)
Definition call {A : Type} (ev : event) (op : ext World A) : M World A :=
  fun w => let '(r, w1) := op w in (r, w1, [ev]).

(** A collaborator call that the trace leaves out. *)
Definition peek {A : Type} (op : ext World A) : M World A :=
  fun w => let '(r, w1) := op w in (r, w1, []).

Definition logger_info (fmt : string) (args : list string) : M World unit :=
  fun w => (Ok tt, w, [LogInfo fmt args]).

(** [try: m except ...: handler]; [handler e = None] when no clause
    matches [e], which then propagates. *)
Definition try_except {A : Type} (m : M World A)
    (handler : exn -> option (M World A)) : M World A :=
  fun w =>
    match m w with
    | (Ok a, w1, t1) => (Ok a, w1, t1)
    | (Raise e, w1, t1) =>
        match handler e with
        | Some h => let '(r, w2, t2) := h w1 in (r, w2, t1 ++ t2)
        | None => (Raise e, w1, t1)
        end
    end.

(** [for x in l: body(x)]. *)
Fixpoint for_each {A : Type} (l : list A) (body : A -> M World unit)
  : M World unit :=
  match l with
  | [] => ret tt
  | x :: l' => bind (body x) (fun _ => for_each l' body)
  end.

(** [if c: m]. *)
Definition when (c : bool) (m : M World unit) : M World unit :=
  if c then m else ret tt.

(** An expression without effects that returns or raises. *)
Definition eval {A : Type} (r : outcome A) : M World A :=
  fun w => (r, w, []).

(** A Python function that returns or raises [e]. *)
Definition or_raise {A : Type} (e : exn) (o : option A) : M World A :=
  match o with
  | Some a => ret a
  | None => raise e
  end.

End Monad.

Declare Scope py_scope.
Delimit Scope py_scope with py.
Notation "x <- m ;; k" := (bind m (fun x => k))
  (at level 61, m at next level, right associativity) : py_scope.
Notation "' p <- m ;; k" := (bind m (fun x => match x with p => k end))
  (at level 61, p pattern, m at next level, right associativity) : py_scope.
Notation "m ;; k" := (bind m (fun _ => k))
  (at level 61, right associativity) : py_scope.
Local Open Scope py_scope.

(** Result and trace of a computation. *)
Definition result {World A : Type} (m : M World A) (w : World) : outcome A :=
  fst (fst (m w)).
Definition trace {World A : Type} (m : M World A) (w : World) : list event :=
  snd (m w).

(** [d[key]] on a dictionary given by its items. *)
Fixpoint lookup {V : Type} (key : string) (d : list (string * V)) : option V :=
  match d with
  | [] => None
  | (k, v) :: d' => if String.eqb k key then Some v else lookup key d'
  end.

(** [x if x else d] for an optional string [x], and its use as a value. *)
Definition if_else {A : Type} (x : option string) (f : string -> A) (d : A) : A :=
  match x with
  | Some s => if String.eqb s "" then d else f s
  | None => d
  end.


(** The storage calls of a cleanup pass. *)
Definition cleanup_event (ev : event) : bool :=
  match ev with
  | ListDirectory | DeleteFile _ => true
  | _ => false
  end.


(** ** The command *)

Section CommandModule.
Context {World : Type} (env : Env World).

(** Modelled from the spec: [utils.compress_file] is defined outside the
    command module.  A transform stage reads the input stream, produces a
    fresh output stream and appends exactly one well-known suffix, that of
    its identity, to the filename. *)
Definition compress_file (inputfile : stream) (filename : string)
  : M World (stream * string) :=
  outputfile <- call (CompressFile inputfile filename)
                     (compress_stream env inputfile) ;;
  ret (outputfile, (filename ++ compress_suffix env)%string).

(** Modelled from the spec: [utils.encrypt_file] is defined outside the
    command module; it is the second transform stage, with the suffix of
    encryption. *)
Definition encrypt_file (inputfile : stream) (filename : string)
  : M World (stream * string) :=
  outputfile <- call (EncryptFile inputfile filename)
                     (encrypt_stream env inputfile) ;;
  ret (outputfile, (filename ++ encrypt_suffix env)%string).

(** [Command.write_local_file]. *)
Definition write_local_file (self : Self.t World) (outputfile : stream)
    (path : string) : M World unit :=
  call (WriteLocalFile outputfile path) (copy_to_path env outputfile path).

(** The two [if] statements of [_save_new_backup] that run the transform
    stages over the dump and its name. *)
Definition transform (self : Self.t World) (outputfile : stream)
    (filename : string)
  : M World (stream * string) :=
  '(outputfile, filename) <-
    (if Self.compress self then compress_file outputfile filename
     else ret (outputfile, filename)) ;;
  if Self.encrypt self then encrypt_file outputfile filename
  else ret (outputfile, filename).

(** The write at the end of [_save_new_backup]. *)
Definition store (self : Self.t World) (outputfile : stream)
    (filename : string)
  : M World unit :=
  match Self.path self with
  | None =>
      logger_info "Writing file to %s: %s, filename: %s"
        [Storage.name (Self.storage self);
         Storage.backup_dir (Self.storage self); filename] ;;
      call (WriteFile outputfile filename)
           (Storage.write_file (Self.storage self) outputfile filename)
  | Some path =>
      logger_info "Writing file to %s" [path] ;;
      write_local_file self outputfile path
  end.

(** The second [if not self.quiet] statement of [_save_new_backup]: the
    size of the temporary file is asked from [utils.handle_size], then
    logged.  The call is made only when the command is not quiet; it may
    raise, and it works on the file object. *)
Definition log_size (self : Self.t World) (outputfile : stream)
  : M World unit :=
  when (negb (Self.quiet self))
    (size <- call (HandleSize outputfile) (handle_size env outputfile) ;;
     logger_info "Backup tempfile created: %s" [size]).

(** [Command._save_new_backup]. *)
Definition _save_new_backup (self : Self.t World) (database : Database)
  : M World unit :=
  when (negb (Self.quiet self))
    (logger_info "Backing Up Database: %s" [NAME database]) ;;
  filename <- peek (DBCommandsT.filename (Self.dbcommands self)
                      (Self.servername self)) ;;
  outputfile <- call CreateDump (Connector.create_dump (Self.connector self)) ;;
  '(outputfile, filename) <- transform self outputfile filename ;;
  let filename :=
    if_else (Self.filename self) (fun s => s) filename in
  log_size self outputfile ;;
  store self outputfile filename.

(** The three statements of the loop of [_cleanup_old_backups] that
    recover the timestamp from a file path: build the pattern, take the
    first match on the base name ([IndexError] when there is none), parse
    it with the date format ([ValueError] when it does not fit). *)
Definition parse_timestamp (self : Self.t World) (filepath : string)
  : outcome Py.datetime :=
  let regex :=
    ("^" ++ DBCommandsT.filename_match (Self.dbcommands self)
              (Self.servername self) "(.*?)")%string in
  match re_findall env regex (Py.basename filepath) with
  | [] => Raise IndexError
  | datestr :: _ =>
      match strptime env datestr (DATE_FORMAT env) with
      | Some dateTime => Ok dateTime
      | None => Raise ValueError
      end
  end.

(** The body of the loop of [_cleanup_old_backups]. *)
Definition cleanup_entry (self : Self.t World) (filepath : string)
  : M World unit :=
  dateTime <- eval (parse_timestamp self filepath) ;;
  d <- or_raise ValueError (Py.int (Py.strftime_d dateTime)) ;;
  when (negb (d =? 1)%Z)
    (when (negb (Self.quiet self))
       (logger_info "Deleting: %s" [filepath]) ;;
     call (DeleteFile filepath)
          (Storage.delete_file (Self.storage self) filepath)).

(** The list the loop of [_cleanup_old_backups] runs over, from the
    directory listing: [sorted(filepaths[0:-self.clean_keep])] after
    [filter_filepaths]. *)
Definition candidates (self : Self.t World) (listing : list string)
  : list string :=
  let filepaths :=
    DBCommandsT.filter_filepaths (Self.dbcommands self) listing in
  Py.sorted (Py.slice_to filepaths (- Self.clean_keep self)).

(** [Command._cleanup_old_backups]. *)
Definition _cleanup_old_backups (self : Self.t World) (database : Database)
  : M World unit :=
  logger_info "Cleaning Old Backups for: %s" [NAME database] ;;
  filepaths <- call ListDirectory
                 (Storage.list_directory (Self.storage self)) ;;
  for_each (candidates self filepaths) (cleanup_entry self).

(** The command object as [handle] has set it up when it reaches the
    [try] statement for one database. *)
Definition configure (options : Options.t) (database_key : string)
    (database : Database) : Self.t World :=
  {| Self.verbosity := Options.verbosity options;
     Self.quiet := Options.quiet options;
     Self.clean := Options.clean options;
     Self.clean_keep := CLEANUP_KEEP env;
     Self.database := Options.database options;
     Self.servername := Options.servername options;
     Self.compress := Options.compress options;
     Self.encrypt := Options.encrypt options;
     Self.filename := Options.output_filename options;
     Self.path := Options.output_path options;
     Self.storage := storage_factory env;
     Self.dbcommands :=
       if Py.contains "mongo" (ENGINE database)
       then MongoDBCommands env database
       else DBCommands env database;
     Self.connector := get_connector env database_key |}.

(** The [except StorageError as err: raise CommandError(err)] clause. *)
Definition except_StorageError (err : exn) : option (M World unit) :=
  match err with
  | StorageError msg => Some (raise (CommandError msg))
  | _ => None
  end.

(** [(self.database,) if self.database else dbbackup_settings.DATABASES]. *)
Definition database_keys (options : Options.t) : list string :=
  if_else (Options.database options) (fun key => [key]) (DATABASES env).

(** The body of the loop of [handle] over the database keys. *)
Definition handle_database (options : Options.t) (database_key : string)
  : M World unit :=
  database <- or_raise (KeyError database_key)
                (lookup database_key (settings_DATABASES env)) ;;
  let self := configure options database_key database in
  database <- or_raise (KeyError database_key)
                (lookup database_key (settings_DATABASES env)) ;;
  try_except
    (_save_new_backup self database ;;
     when (Self.clean self) (_cleanup_old_backups self database))
    except_StorageError.

(** [Command.handle], without its decorator (which reports an uncaught
    exception by mail and lets it propagate).  The calls that build the
    collaborators, [BaseStorage.storage_factory()], [get_connector(...)]
    and the constructors of [DBCommands] and [MongoDBCommands], are taken
    to have returned: the environment holds the objects they return, and
    the statements below say nothing of a run in which one of them
    raises. *)
Definition handle (options : Options.t) : M World unit :=
  for_each (database_keys options) (handle_database options).

End CommandModule.

(** ** Trace fragments

    Names for the pieces of trace that the statements below mention. *)

(** The log entry that precedes a delete, unless the command is quiet. *)
Definition deleting_log {World : Type} (self : Self.t World)
    (filepath : string) : list event :=
  if Self.quiet self then [] else [LogInfo "Deleting: %s" [filepath]].

(** What a cleanup pass traces before its loop. *)
Definition cleanup_header (database : Database) : list event :=
  [LogInfo "Cleaning Old Backups for: %s" [NAME database]; ListDirectory].

(** The first log entry of [_save_new_backup], which [quiet] silences. *)
Definition backing_up_log {World : Type} (self : Self.t World)
    (database : Database) : list event :=
  if Self.quiet self then []
  else [LogInfo "Backing Up Database: %s" [NAME database]].

(** The exception that leaves the [try] statement of [handle] when its body
    raises [err]. *)
Definition reraised (err : exn) : exn :=
  match err with
  | StorageError msg => CommandError msg
  | _ => err
  end.

(** ** A test double for the collaborators

    A small in-memory storage and a naming scheme [NAME-YYYY-MM-DD.sql],
    in the manner of a unit test's fakes.  The concrete runs below are made
    against it. *)

Module Demo.

(** The world outside the process. *)
Record world : Type := {
  files : list string;      (* the backup directory, in listing order *)
  today : string;           (* the clock, rendered with the date format *)
  read_only : bool;         (* the storage refuses writes *)
  locked : list string;     (* files the storage refuses to delete *)
  offline : list string }.  (* database keys whose dump fails *)

Definition mem (x : string) (l : list string) : bool :=
  existsb (String.eqb x) l.

Definition storage : Storage.t world :=
  {| Storage.name := "memory";
     Storage.backup_dir := "/backups";
     Storage.write_file := fun _ filename w =>
       if read_only w then (Raise (StorageError "read-only storage"), w)
       else (Ok tt,
             {| files := files w ++ [filename]; today := today w;
                read_only := read_only w; locked := locked w;
                offline := offline w |});
     Storage.list_directory := fun w => (Ok (files w), w);
     Storage.delete_file := fun filepath w =>
       if mem filepath (locked w)
       then (Raise (StorageError "cannot delete"), w)
       else (Ok tt,
             {| files := filter (fun f => negb (String.eqb f filepath))
                                (files w);
                today := today w; read_only := read_only w;
                locked := locked w; offline := offline w |}) |}.

Definition connector (database_key : string) : Connector.t world :=
  {| Connector.create_dump := fun w =>
       if mem database_key (offline w)
       then (Raise (OtherError "dump failed"), w)
       else (Ok [Byte.x53; Byte.x51; Byte.x4c], w) |}.

(** File names are [NAME-<timestamp>.sql]. *)
Definition dbcommands (database : Database) : DBCommandsT.t world :=
  {| DBCommandsT.filename := fun _ w =>
       (Ok (NAME database ++ "-" ++ today w ++ ".sql")%string, w);
     DBCommandsT.filter_filepaths :=
       filter (String.prefix (NAME database ++ "-")%string);
     DBCommandsT.filename_match := fun _ wildcard =>
       (NAME database ++ "-" ++ wildcard ++ ".sql")%string |}.

(** Position of the first occurrence of [needle] in [s]. *)
Definition find (needle s : string) : option nat := String.index 0 needle s.

Definition after (n : nat) (s : string) : string :=
  String.substring n (String.length s - n) s.

(** [re.findall] for the patterns the command builds: an anchor, a
    literal prefix, the group [(.*?)] and a literal rest. *)
Definition match_all (regex s : string) : list string :=
  match find "(.*?)" regex with
  | None => []
  | Some i =>
      let pre := String.substring 1 (i - 1) regex in
      let post := after (i + 5) regex in
      if String.prefix pre s then
        let rest := after (String.length pre) s in
        match find post rest with
        | Some j => [String.substring 0 j rest]
        | None => []
        end
      else []
  end.

Definition number (s : string) : option nat :=
  match NilZero.uint_of_string s with
  | Some d => Some (Nat.of_uint d)
  | None => None
  end.

(** [datetime.strptime] for the format [%Y-%m-%d]. *)
Definition parse_date (s format : string) : option Py.datetime :=
  if String.eqb format "%Y-%m-%d"
     && (String.length s =? 10)%nat
     && String.eqb (String.substring 4 1 s) "-"
     && String.eqb (String.substring 7 1 s) "-"
  then
    match number (String.substring 0 4 s),
          number (String.substring 5 2 s),
          number (String.substring 8 2 s) with
    | Some y, Some m, Some d =>
        if (1 <=? m)%nat && (m <=? 12)%nat && (1 <=? d)%nat && (d <=? 31)%nat
        then Some (Py.mk_datetime y m d 0 0 0)
        else None
    | _, _, _ => None
    end
  else None.

Definition env (keep : Z) : Env world :=
  {| settings_DATABASES :=
       [("default", {| NAME := "shop"; ENGINE := "django.db.backends.sqlite3" |});
        ("events", {| NAME := "logs"; ENGINE := "django_mongodb_engine" |})];
     CLEANUP_KEEP := keep;
     DATE_FORMAT := "%Y-%m-%d";
     DATABASES := ["default"; "events"];
     storage_factory := storage;
     get_connector := connector;
     DBCommands := dbcommands;
     MongoDBCommands := dbcommands;
     compress_stream := fun s w => (Ok (Byte.x1f :: Byte.x8b :: s), w);
     compress_suffix := ".gz";
     encrypt_stream := fun s w => (Ok (Byte.x85 :: s), w);
     encrypt_suffix := ".gpg";
     handle_size := fun s w => (Ok (Py.decimal (List.length s)), w);
     re_findall := match_all;
     strptime := parse_date;
     copy_to_path := fun _ _ w => (Ok tt, w) |}.

Definition options : Options.t :=
  {| Options.verbosity := 1;
     Options.quiet := true;
     Options.clean := true;
     Options.database := None;
     Options.servername := None;
     Options.compress := false;
     Options.encrypt := false;
     Options.output_filename := None;
     Options.output_path := None |}.

Definition shop : Database :=
  {| NAME := "shop"; ENGINE := "django.db.backends.sqlite3" |}.

Definition self (keep : Z) : Self.t world :=
  configure (env keep) options "default" shop.

Definition dir (l : list string) : world :=
  {| files := l; today := "2023-03-06"; read_only := false;
     locked := []; offline := [] |}.

End Demo.

(** ** Observations on traces and runs *)

(** The paths handed to [delete_file] in a trace, in the order of the
    calls. *)
Fixpoint deleted (t : list event) : list string :=
  match t with
  | [] => []
  | DeleteFile filepath :: t' => filepath :: deleted t'
  | _ :: t' => deleted t'
  end.

Definition is_log (ev : event) : bool :=
  match ev with
  | LogInfo _ _ => true
  | _ => false
  end.



Definition write_event (ev : event) : bool :=
  match ev with
  | WriteFile _ _ | WriteLocalFile _ _ => true
  | _ => false
  end.

Definition dump_event (ev : event) : bool :=
  match ev with
  | CreateDump => true
  | _ => false
  end.

(** How many entries of a trace satisfy [p]. *)
Definition count (p : event -> bool) (t : list event) : nat :=
  List.length (filter p t).

(** [l1] is [l2] with some elements left out. *)
Inductive subseq {A : Type} : list A -> list A -> Prop :=
| subseq_nil : subseq [] []
| subseq_skip (x : A) (l1 l2 : list A) : subseq l1 l2 -> subseq l1 (x :: l2)
| subseq_keep (x : A) (l1 l2 : list A) :
    subseq l1 l2 -> subseq (x :: l1) (x :: l2).

(** The test of the loop of [_cleanup_old_backups] on a path whose
    timestamp parses: true when the day is not the first of the month. *)
Definition unprotected {World : Type} (env : Env World) (self : Self.t World)
    (filepath : string) : bool :=
  match parse_timestamp env self filepath with
  | Ok dateTime => negb (Py.day dateTime =? 1)%nat
  | Raise _ => false
  end.

(** The keyword arguments with another value for [quiet]. *)
Definition with_quiet (q : bool) (options : Options.t) : Options.t :=
  {| Options.verbosity := Options.verbosity options;
     Options.quiet := q;
     Options.clean := Options.clean options;
     Options.database := Options.database options;
     Options.servername := Options.servername options;
     Options.compress := Options.compress options;
     Options.encrypt := Options.encrypt options;
     Options.output_filename := Options.output_filename options;
     Options.output_path := Options.output_path options |}.

(** [seg] is the trace of a turn of the loop of [handle] for
    [database_key] that has started in world [w] and returned in world
    [w']: the key is in the settings, the name was asked from the
    dbcommands object of that database, the dump was made by the connector
    of that key, and the turn holds one dump and one write. *)
Definition turn {World : Type} (env : Env World) (options : Options.t)
    (database_key : string) (w : World) (seg : list event) (w' : World)
  : Prop :=
  exists database,
    lookup database_key (settings_DATABASES env) = Some database /\
    handle_database env options database_key w = (Ok tt, w', seg) /\
    count dump_event seg = 1%nat /\ count write_event seg = 1%nat /\
    exists name w0 dump w1,
      DBCommandsT.filename
        (Self.dbcommands (configure env options database_key database))
        (Options.servername options) w = (Ok name, w0) /\
      Connector.create_dump (get_connector env database_key) w0
      = (Ok dump, w1).

(** [segs] holds the traces of the turns for [database_keys], one after the
    other: each turn starts in the world that the turn before it has left,
    the first one in [w], and the last one leaves [w']. *)
Fixpoint turns {World : Type} (env : Env World) (options : Options.t)
    (database_keys : list string) (w : World) (segs : list (list event))
    (w' : World) : Prop :=
  match database_keys, segs with
  | [], [] => w = w'
  | database_key :: database_keys, seg :: segs =>
      exists w1,
        turn env options database_key w seg w1 /\
        turns env options database_keys w1 segs w'
  | _, _ => False
  end.

(** An environment in which [utils.handle_size] raises. *)
Definition size_unavailable {World : Type} (env : Env World) : Env World :=
  {| settings_DATABASES := settings_DATABASES env;
     CLEANUP_KEEP := CLEANUP_KEEP env;
     DATE_FORMAT := DATE_FORMAT env;
     DATABASES := DATABASES env;
     storage_factory := storage_factory env;
     get_connector := get_connector env;
     DBCommands := DBCommands env;
     MongoDBCommands := MongoDBCommands env;
     compress_stream := compress_stream env;
     compress_suffix := compress_suffix env;
     encrypt_stream := encrypt_stream env;
     encrypt_suffix := encrypt_suffix env;
     handle_size := fun _ w => (Raise (OtherError "size unavailable"), w);
     re_findall := re_findall env;
     strptime := strptime env;
     copy_to_path := copy_to_path env |}.


(** ** Facts about the Python runtime pieces *)

Lemma to_uint_not_Nil (n : nat) : Nat.to_uint n <> Nil.
Proof.
  rewrite <- (Unsigned.of_to n) at 1.
  rewrite Unsigned.to_of.
  apply DecimalFacts.unorm_nonnil.
Qed.

Lemma int_decimal (n : nat) : Py.int (Py.decimal n) = Some (Z.of_nat n).
Proof.
  unfold Py.int, Py.decimal.
  rewrite NilZero.usu by apply to_uint_not_Nil.
  now rewrite Unsigned.of_to.
Qed.

(** Reading back the two-digit day gives the day. *)
Lemma int_strftime_d (dt : Py.datetime) :
  Py.int (Py.strftime_d dt) = Some (Z.of_nat (Py.day dt)).
Proof.
  unfold Py.strftime_d.
  destruct (Py.day dt <? 10)%nat; [| apply int_decimal].
  pose proof (int_decimal (Py.day dt)) as H.
  unfold Py.int, Py.decimal, NilZero.uint_of_string in *.
  destruct (NilZero.string_of_uint (Nat.to_uint (Py.day dt))) as [| c s] eqn:E.
  - discriminate H.
  - cbn [NilEmpty.uint_of_string] in *.
    destruct (uint_of_char c (NilEmpty.uint_of_string s)) as [d |];
      [| discriminate H].
    cbn. exact H.
Qed.

(** With a keep count of at least one, [l[0:-keep]] is [l] without its last
    [keep] elements, and nothing when [l] has no more than [keep]. *)
Lemma slice_to_keep {A : Type} (l : list A) (keep : Z) :
  (1 <= keep)%Z ->
  Py.slice_to l (- keep) = firstn (List.length l - Z.to_nat keep) l.
Proof.
  intros Hk. unfold Py.slice_to.
  destruct (Z.ltb_spec (- keep) 0); [| lia].
  f_equal. lia.
Qed.

Lemma slice_to_short {A : Type} (l : list A) (keep : Z) :
  (1 <= keep)%Z -> (Z.of_nat (List.length l) <= keep)%Z ->
  Py.slice_to l (- keep) = [].
Proof.
  intros Hk Hn. rewrite slice_to_keep by assumption.
  replace (List.length l - Z.to_nat keep)%nat with 0%nat by lia.
  reflexivity.
Qed.

Lemma slice_to_zero {A : Type} (l : list A) : Py.slice_to l (- 0) = [].
Proof.
  unfold Py.slice_to. cbn [Z.opp Z.ltb Z.compare].
  now replace (Z.min 0 (Z.of_nat (List.length l))) with 0%Z by lia.
Qed.

Lemma insert_perm (x : string) (l : list string) :
  Permutation (Py.insert x l) (x :: l).
Proof.
  induction l as [| y l IH]; cbn.
  - apply Permutation_refl.
  - destruct (String.leb x y).
    + apply Permutation_refl.
    + eapply perm_trans; [apply perm_skip, IH | apply perm_swap].
Qed.

(** [sorted] returns the same entries, reordered. *)
Lemma sorted_perm (l : list string) : Permutation (Py.sorted l) l.
Proof.
  induction l as [| x l IH]; cbn.
  - apply perm_nil.
  - eapply perm_trans; [apply insert_perm | apply perm_skip, IH].
Qed.

Lemma sorted_in (l : list string) (x : string) :
  In x (Py.sorted l) <-> In x l.
Proof.
  split; apply Permutation_in;
    [apply sorted_perm | apply Permutation_sym, sorted_perm].
Qed.

Lemma insert_sorted (x : string) (l : list string) :
  Sorted.Sorted (fun a b => String.leb a b = true) l ->
  Sorted.Sorted (fun a b => String.leb a b = true) (Py.insert x l).
Proof.
  induction 1 as [| y l Hl IH Hy]; cbn.
  - repeat constructor.
  - destruct (String.leb x y) eqn:Hxy.
    + repeat constructor; assumption.
    + constructor; [exact IH |].
      assert (Hyx : String.leb y x = true)
        by (destruct (String.leb_total x y); congruence).
      destruct Hy as [| z l' Hz]; cbn.
      * now constructor.
      * destruct (String.leb x z); now constructor.
Qed.

(** [sorted] returns an ascending list. *)
Lemma sorted_ascending (l : list string) :
  Sorted.Sorted (fun a b => String.leb a b = true) (Py.sorted l).
Proof.
  induction l as [| x l IH]; cbn.
  - constructor.
  - now apply insert_sorted.
Qed.

(** ** Facts about computations *)

Section MonadFacts.
Context {World : Type}.

Lemma bind_ok {A B : Type} (m : M World A) (k : A -> M World B)
    w a w1 t1 r w2 t2 :
  m w = (Ok a, w1, t1) -> k a w1 = (r, w2, t2) ->
  bind m k w = (r, w2, t1 ++ t2).
Proof.
  intros Hm Hk. unfold bind. now rewrite Hm, Hk.
Qed.

Lemma bind_raise {A B : Type} (m : M World A) (k : A -> M World B)
    w e w1 t1 :
  m w = (Raise e, w1, t1) -> bind m k w = (Raise e, w1, t1).
Proof.
  intros Hm. unfold bind. now rewrite Hm.
Qed.

Lemma trace_bind_in {A B : Type} (m : M World A) (k : A -> M World B)
    w ev :
  In ev (trace (bind m k) w) ->
  In ev (trace m w) \/
  exists a w1 t1, m w = (Ok a, w1, t1) /\ In ev (trace (k a) w1).
Proof.
  unfold trace, bind.
  destruct (m w) as [[[a | e] w1] t1]; cbn.
  - destruct (k a w1) as [[r w2] t2] eqn:Hk. cbn.
    rewrite in_app_iff. intros [H | H]; [now left | right].
    exists a, w1, t1. now rewrite Hk.
  - now left.
Qed.

(** A loop over [l1 ++ l2] is the loop over [l1] followed by the loop
    over [l2]. *)
Lemma for_each_app {A : Type} (l1 l2 : list A) (body : A -> M World unit)
    w :
  for_each (l1 ++ l2) body w =
  bind (for_each l1 body) (fun _ => for_each l2 body) w.
Proof.
  revert w. induction l1 as [| x l1 IH]; intros w; cbn.
  - unfold bind, ret. destruct (for_each l2 body w) as [[r w2] t2].
    reflexivity.
  - unfold bind.
    destruct (body x w) as [[[[] | e] w1] t1]; [| reflexivity].
    rewrite IH. unfold bind.
    destruct (for_each l1 body w1) as [[[[] | e] w2] t2].
    + destruct (for_each l2 body w2) as [[r w3] t3].
      now rewrite app_assoc.
    + reflexivity.
Qed.

(** An iteration that raises ends the loop: what follows it in the list
    is not run. *)
Lemma for_each_abort {A : Type} (l1 l2 : list A) (x : A)
    (body : A -> M World unit) w w1 t1 e w2 t2 :
  for_each l1 body w = (Ok tt, w1, t1) ->
  body x w1 = (Raise e, w2, t2) ->
  for_each (l1 ++ x :: l2) body w = (Raise e, w2, t1 ++ t2).
Proof.
  intros H1 Hx. rewrite for_each_app.
  eapply bind_ok; [exact H1 |].
  cbn. now apply bind_raise.
Qed.

(** Every entry of a loop's trace was written by one of its iterations. *)
Lemma for_each_trace_in {A : Type} (l : list A) (body : A -> M World unit)
    w ev :
  In ev (trace (for_each l body) w) ->
  exists x w0, In x l /\ In ev (trace (body x) w0).
Proof.
  revert w. induction l as [| x l IH]; intros w; cbn.
  - intros [].
  - intros H. apply trace_bind_in in H. destruct H as [H | (a & w1 & t1 & _ & H)].
    + exists x, w. auto.
    + destruct (IH _ H) as (y & w0 & Hy & Hev).
      exists y, w0. auto.
Qed.

End MonadFacts.

(** ** The cleanup pass *)

Section CleanupFacts.
Context {World : Type} (env : Env World) (self : Self.t World).

(** One iteration of the loop, case by case. *)
Lemma cleanup_entry_spec (filepath : string) (w : World) :
  cleanup_entry env self filepath w =
  match parse_timestamp env self filepath with
  | Raise e => (Raise e, w, [])
  | Ok dateTime =>
      if (Py.day dateTime =? 1)%nat then (Ok tt, w, [])
      else
        let '(r, w1) := Storage.delete_file (Self.storage self) filepath w in
        (r, w1, deleting_log self filepath ++ [DeleteFile filepath])
  end.
Proof.
  unfold cleanup_entry, bind, eval, deleting_log.
  destruct (parse_timestamp env self filepath) as [dt | e]; [| reflexivity].
  rewrite int_strftime_d. cbn [or_raise ret].
  replace (Z.of_nat (Py.day dt) =? 1)%Z with (Py.day dt =? 1)%nat
    by (destruct (Nat.eqb_spec (Py.day dt) 1), (Z.eqb_spec (Z.of_nat (Py.day dt)) 1);
        auto; lia).
  destruct (Py.day dt =? 1)%nat; cbn; [reflexivity |].
  unfold when, bind, call, logger_info, ret.
  destruct (Self.quiet self); cbn;
    destruct (Storage.delete_file (Self.storage self) filepath w) as [r w1];
    reflexivity.
Qed.

(** An iteration only ever deletes its own entry, and only one that
    parses to a day other than the first. *)
Lemma cleanup_entry_delete (filepath f : string) (w : World) :
  In (DeleteFile f) (trace (cleanup_entry env self filepath) w) ->
  f = filepath /\
  exists dateTime,
    parse_timestamp env self filepath = Ok dateTime /\ Py.day dateTime <> 1%nat.
Proof.
  unfold trace. rewrite cleanup_entry_spec.
  destruct (parse_timestamp env self filepath) as [dt | e]; [| intros []].
  destruct (Nat.eqb_spec (Py.day dt) 1) as [| Hd]; [intros [] |].
  destruct (Storage.delete_file (Self.storage self) filepath w) as [r w1].
  cbn. rewrite in_app_iff. unfold deleting_log.
  intros [H | [H | []]].
  - destruct (Self.quiet self); [destruct H |].
    destruct H as [H | []]. discriminate H.
  - injection H as <-. split; [reflexivity |]. now exists dt.
Qed.

(** The pass: the listing, then the loop over the candidates. *)
Lemma cleanup_spec (database : Database) (w : World) :
  _cleanup_old_backups env self database w =
  match Storage.list_directory (Self.storage self) w with
  | (Ok listing, w1) =>
      let '(r, w2, t) :=
        for_each (candidates self listing) (cleanup_entry env self) w1 in
      (r, w2, cleanup_header database ++ t)
  | (Raise e, w1) => (Raise e, w1, cleanup_header database)
  end.
Proof.
  unfold _cleanup_old_backups, bind, logger_info, call, cleanup_header.
  destruct (Storage.list_directory (Self.storage self) w) as [[listing | e] w1];
    [| reflexivity].
  destruct (for_each _ _ w1) as [[r w2] t]. reflexivity.
Qed.

(** Whatever the pass deletes is one of its candidates. *)
Lemma cleanup_delete_candidate (database : Database) (w : World) (f : string) :
  In (DeleteFile f) (trace (_cleanup_old_backups env self database) w) ->
  exists listing w1,
    Storage.list_directory (Self.storage self) w = (Ok listing, w1) /\
    In f (candidates self listing) /\
    exists dateTime,
      parse_timestamp env self f = Ok dateTime /\ Py.day dateTime <> 1%nat.
Proof.
  unfold trace. rewrite cleanup_spec.
  destruct (Storage.list_directory (Self.storage self) w) as [[listing | e] w1].
  - destruct (for_each _ _ w1) as [[r w2] t] eqn:Hloop. cbn.
    intros [H | [H | H]]; try discriminate H.
    assert (Ht : In (DeleteFile f)
                   (trace (for_each (candidates self listing)
                             (cleanup_entry env self)) w1))
      by (unfold trace; now rewrite Hloop).
    apply for_each_trace_in in Ht. destruct Ht as (x & w0 & Hx & Hev).
    apply cleanup_entry_delete in Hev. destruct Hev as [-> Hdt].
    exists listing, w1. auto.
  - cbn. intros [H | [H | []]]; discriminate H.
Qed.

End CleanupFacts.

(** C6.  In a cleanup pass no file whose timestamp parses to the first day
    of a month is deleted, wherever it stands in the listing: the storage is
    never asked to delete it. *)
Theorem first_of_month_never_deleted {World : Type} (env : Env World)
    (self : Self.t World) (database : Database) (w : World)
    (filepath : string) (dateTime : Py.datetime) :
  parse_timestamp env self filepath = Ok dateTime ->
  Py.day dateTime = 1%nat ->
  ~ In (DeleteFile filepath) (trace (_cleanup_old_backups env self database) w).
Proof.
  intros Hparse Hday Hin.
  apply cleanup_delete_candidate in Hin.
  destruct Hin as (_ & _ & _ & _ & dt & Hdt & Hne).
  rewrite Hparse in Hdt. injection Hdt as <-. contradiction.
Qed.

(** C7.  With a keep count of at least one and no more recognised backups
    in the listing than the keep count, the cleanup pass logs, lists the
    directory and stops: it deletes nothing. *)
Theorem keep_count_honored {World : Type} (env : Env World)
    (self : Self.t World) (database : Database) (w w1 : World)
    (listing : list string) :
  (1 <= Self.clean_keep self)%Z ->
  Storage.list_directory (Self.storage self) w = (Ok listing, w1) ->
  (Z.of_nat (List.length
               (DBCommandsT.filter_filepaths (Self.dbcommands self) listing))
   <= Self.clean_keep self)%Z ->
  _cleanup_old_backups env self database w =
    (Ok tt, w1, [LogInfo "Cleaning Old Backups for: %s" [NAME database];
                 ListDirectory]).
Proof.
  intros Hk Hlist Hn.
  rewrite cleanup_spec, Hlist.
  unfold candidates. rewrite slice_to_short by assumption.
  reflexivity.
Qed.

Lemma first_of_month_never_deleted_witness :
  parse_timestamp (Demo.env 1) (Demo.self 1) "shop-2023-02-01.sql"
    = Ok (Py.mk_datetime 2023 2 1 0 0 0) /\
  ~ In (DeleteFile "shop-2023-02-01.sql")
       (trace (_cleanup_old_backups (Demo.env 1) (Demo.self 1) Demo.shop)
          (Demo.dir ["shop-2023-01-01.sql"; "shop-2023-01-15.sql";
                     "shop-2023-02-01.sql"; "shop-2023-02-20.sql";
                     "shop-2023-03-05.sql"])).
Proof.
  split; [reflexivity |].
  apply (first_of_month_never_deleted (Demo.env 1) (Demo.self 1) Demo.shop _
           "shop-2023-02-01.sql" (Py.mk_datetime 2023 2 1 0 0 0));
    reflexivity.
Defined.

Lemma keep_count_honored_witness :
  _cleanup_old_backups (Demo.env 2) (Demo.self 2) Demo.shop
    (Demo.dir ["shop-2023-01-15.sql"; "logs-2023-01-20.sql";
               "shop-2023-02-20.sql"])
  = (Ok tt,
     Demo.dir ["shop-2023-01-15.sql"; "logs-2023-01-20.sql";
               "shop-2023-02-20.sql"],
     [LogInfo "Cleaning Old Backups for: %s" ["shop"]; ListDirectory]).
Proof.
  apply (keep_count_honored (Demo.env 2) (Demo.self 2) Demo.shop _ _
           ["shop-2023-01-15.sql"; "logs-2023-01-20.sql";
            "shop-2023-02-20.sql"]).
  - cbn. lia.
  - reflexivity.
  - vm_compute. discriminate.
Defined.

(** The example of the retention policy: five backups, keep count one. *)
Example retention_example :
  trace (_cleanup_old_backups (Demo.env 1) (Demo.self 1) Demo.shop)
    (Demo.dir ["shop-2023-01-01.sql"; "shop-2023-01-15.sql";
               "shop-2023-02-01.sql"; "shop-2023-02-20.sql";
               "shop-2023-03-05.sql"])
  = [LogInfo "Cleaning Old Backups for: %s" ["shop"]; ListDirectory;
     DeleteFile "shop-2023-01-15.sql"; DeleteFile "shop-2023-02-20.sql"].
Proof. vm_compute. reflexivity. Qed.

(** What the slice protects is a position in the listing: with a keep count
    of at least one, a deleted file is among the entries of the filtered
    listing that precede its last [keep] ones, in the order the storage
    returned them. *)
Lemma cleanup_protects_listing_tail {World : Type} (env : Env World)
    (self : Self.t World) (database : Database) (w : World) (f : string) :
  (1 <= Self.clean_keep self)%Z ->
  In (DeleteFile f) (trace (_cleanup_old_backups env self database) w) ->
  exists listing w1,
    Storage.list_directory (Self.storage self) w = (Ok listing, w1) /\
    let filepaths :=
      DBCommandsT.filter_filepaths (Self.dbcommands self) listing in
    In f (firstn (List.length filepaths - Z.to_nat (Self.clean_keep self))
            filepaths).
Proof.
  intros Hk Hin.
  apply cleanup_delete_candidate in Hin.
  destruct Hin as (listing & w1 & Hlist & Hcand & _).
  exists listing, w1. split; [assumption |].
  unfold candidates in Hcand. apply (proj1 (sorted_in _ _)) in Hcand.
  rewrite slice_to_keep in Hcand by assumption. exact Hcand.
Qed.

(** C1.  The slice is taken before the sort.  On a listing that the storage
    returns newest first, with a keep count of one, the pass keeps the
    oldest backup and deletes the most recent one. *)
Theorem unsorted_listing_deletes_most_recent :
  Demo.parse_date "2023-03-05" "%Y-%m-%d" = Some (Py.mk_datetime 2023 3 5 0 0 0) /\
  Demo.parse_date "2023-01-15" "%Y-%m-%d" = Some (Py.mk_datetime 2023 1 15 0 0 0) /\
  _cleanup_old_backups (Demo.env 1) (Demo.self 1) Demo.shop
    (Demo.dir ["shop-2023-03-05.sql"; "shop-2023-01-15.sql"])
  = (Ok tt,
     Demo.dir ["shop-2023-01-15.sql"],
     [LogInfo "Cleaning Old Backups for: %s" ["shop"]; ListDirectory;
      DeleteFile "shop-2023-03-05.sql"]).
Proof. repeat split; vm_compute; reflexivity. Qed.

(** C2 fails as stated.  A listing with one name that the pattern does not
    match: it passes the filter of the listing, but it does not end in
    [.sql].  [re.findall] returns the empty list, the subscript raises
    [IndexError] and the pass ends there; the valid candidate sorted after
    that name is never deleted. *)
Lemma unmatched_filename_aborts_cleanup :
  re_findall (Demo.env 1) "^shop-(.*?).sql" "shop-2023-02-10.bak" = [] /\
  parse_timestamp (Demo.env 1) (Demo.self 1) "shop-2023-02-10.bak"
    = Raise IndexError /\
  parse_timestamp (Demo.env 1) (Demo.self 1) "shop-2023-02-20.sql"
    = Ok (Py.mk_datetime 2023 2 20 0 0 0) /\
  _cleanup_old_backups (Demo.env 1) (Demo.self 1) Demo.shop
    (Demo.dir ["shop-2023-02-20.sql"; "shop-2023-02-10.bak";
               "shop-2023-01-15.sql"; "shop-2023-03-05.sql"])
  = (Raise IndexError,
     Demo.dir ["shop-2023-02-20.sql"; "shop-2023-02-10.bak";
               "shop-2023-03-05.sql"],
     [LogInfo "Cleaning Old Backups for: %s" ["shop"]; ListDirectory;
      DeleteFile "shop-2023-01-15.sql"]).
Proof. repeat split; vm_compute; reflexivity. Qed.

(** The same with a name that the pattern matches once, but whose matched
    text is not a date: [strptime] raises [ValueError]. *)
Example malformed_date_aborts_cleanup :
  re_findall (Demo.env 1) "^shop-(.*?).sql" "shop-2023-02-1x.sql"
    = ["2023-02-1x"] /\
  parse_timestamp (Demo.env 1) (Demo.self 1) "shop-2023-02-1x.sql"
    = Raise ValueError /\
  parse_timestamp (Demo.env 1) (Demo.self 1) "shop-2023-02-20.sql"
    = Ok (Py.mk_datetime 2023 2 20 0 0 0) /\
  _cleanup_old_backups (Demo.env 1) (Demo.self 1) Demo.shop
    (Demo.dir ["shop-2023-02-20.sql"; "shop-2023-02-1x.sql";
               "shop-2023-01-15.sql"; "shop-2023-03-05.sql"])
  = (Raise ValueError,
     Demo.dir ["shop-2023-02-20.sql"; "shop-2023-02-1x.sql";
               "shop-2023-03-05.sql"],
     [LogInfo "Cleaning Old Backups for: %s" ["shop"]; ListDirectory;
      DeleteFile "shop-2023-01-15.sql"]).
Proof. repeat split; vm_compute; reflexivity. Qed.

(** Parsing raises nothing but [IndexError] and [ValueError]. *)
Lemma parse_timestamp_raises {World : Type} (env : Env World)
    (self : Self.t World) (filepath : string) (e : exn) :
  parse_timestamp env self filepath = Raise e ->
  e = IndexError \/ e = ValueError.
Proof.
  unfold parse_timestamp.
  destruct (re_findall env _ _) as [| datestr rest].
  - intros [= <-]. now left.
  - destruct (strptime env datestr (DATE_FORMAT env)).
    + discriminate.
    + intros [= <-]. now right.
Qed.

(** A candidate whose timestamp does not parse ends the pass with the
    exception of the parse, after the candidates sorted before it. *)
Lemma cleanup_aborts_at_parse_failure {World : Type} (env : Env World)
    (self : Self.t World) (database : Database) (w w1 w2 : World)
    (listing before after : list string) (filepath : string) (e : exn)
    (t : list event) :
  Storage.list_directory (Self.storage self) w = (Ok listing, w1) ->
  candidates self listing = before ++ filepath :: after ->
  for_each before (cleanup_entry env self) w1 = (Ok tt, w2, t) ->
  parse_timestamp env self filepath = Raise e ->
  _cleanup_old_backups env self database w
    = (Raise e, w2, cleanup_header database ++ t).
Proof.
  intros Hlist Hcand Hbefore Hparse.
  rewrite cleanup_spec, Hlist, Hcand.
  erewrite for_each_abort; [| exact Hbefore |].
  - now rewrite app_nil_r.
  - rewrite cleanup_entry_spec, Hparse. reflexivity.
Qed.

(** C2, as amended.  A candidate whose timestamp does not parse ends the
    cleanup pass with an exception.  When the pattern finds no match in the
    base name of the candidate, the exception is [IndexError]; when it
    finds one and the first matched text does not fit the date format, the
    exception is [ValueError].  In both cases the candidates sorted before
    it have been processed, the trace of the pass ends with theirs, so that
    neither the candidate nor any candidate after it is handed to the
    storage, and the clause of [handle] for storage errors does not catch
    the exception. *)
Theorem parse_failure_aborts_cleanup {World : Type} (env : Env World)
    (self : Self.t World) (database : Database) (w w1 w2 : World)
    (listing before after : list string) (filepath : string)
    (t : list event) :
  Storage.list_directory (Self.storage self) w = (Ok listing, w1) ->
  candidates self listing = before ++ filepath :: after ->
  for_each before (cleanup_entry env self) w1 = (Ok tt, w2, t) ->
  let regex :=
    ("^" ++ DBCommandsT.filename_match (Self.dbcommands self)
              (Self.servername self) "(.*?)")%string in
  let found := re_findall env regex (Py.basename filepath) in
  (found = [] ->
   _cleanup_old_backups env self database w
     = (Raise IndexError, w2, cleanup_header database ++ t)
   /\ @except_StorageError World IndexError = None)
  /\ (forall datestr rest,
        found = datestr :: rest ->
        strptime env datestr (DATE_FORMAT env) = None ->
        _cleanup_old_backups env self database w
          = (Raise ValueError, w2, cleanup_header database ++ t)
        /\ @except_StorageError World ValueError = None).
Proof.
  intros Hlist Hcand Hbefore regex found. subst found regex. split.
  - intros Hnone. split; [| reflexivity].
    eapply cleanup_aborts_at_parse_failure; try eassumption.
    unfold parse_timestamp. cbv zeta. now rewrite Hnone.
  - intros datestr rest Hfound Hdate. split; [| reflexivity].
    eapply cleanup_aborts_at_parse_failure; try eassumption.
    unfold parse_timestamp. cbv zeta. now rewrite Hfound, Hdate.
Qed.

Lemma parse_failure_aborts_cleanup_witness :
  (_cleanup_old_backups (Demo.env 1) (Demo.self 1) Demo.shop
     (Demo.dir ["shop-2023-01-15.sql"; "shop-2023-02-10.bak";
                "shop-2023-02-20.sql"; "shop-2023-03-05.sql"])
   = (Raise IndexError,
      Demo.dir ["shop-2023-02-10.bak"; "shop-2023-02-20.sql";
                "shop-2023-03-05.sql"],
      cleanup_header Demo.shop ++ [DeleteFile "shop-2023-01-15.sql"])
   /\ @except_StorageError Demo.world IndexError = None)
  /\ (_cleanup_old_backups (Demo.env 1) (Demo.self 1) Demo.shop
        (Demo.dir ["shop-2023-01-15.sql"; "shop-2023-02-1x.sql";
                   "shop-2023-02-20.sql"; "shop-2023-03-05.sql"])
      = (Raise ValueError,
         Demo.dir ["shop-2023-02-1x.sql"; "shop-2023-02-20.sql";
                   "shop-2023-03-05.sql"],
         cleanup_header Demo.shop ++ [DeleteFile "shop-2023-01-15.sql"])
      /\ @except_StorageError Demo.world ValueError = None).
Proof.
  split.
  - destruct (parse_failure_aborts_cleanup (Demo.env 1) (Demo.self 1)
                Demo.shop
                (Demo.dir ["shop-2023-01-15.sql"; "shop-2023-02-10.bak";
                           "shop-2023-02-20.sql"; "shop-2023-03-05.sql"])
                (Demo.dir ["shop-2023-01-15.sql"; "shop-2023-02-10.bak";
                           "shop-2023-02-20.sql"; "shop-2023-03-05.sql"])
                (Demo.dir ["shop-2023-02-10.bak"; "shop-2023-02-20.sql";
                           "shop-2023-03-05.sql"])
                ["shop-2023-01-15.sql"; "shop-2023-02-10.bak";
                 "shop-2023-02-20.sql"; "shop-2023-03-05.sql"]
                ["shop-2023-01-15.sql"] ["shop-2023-02-20.sql"]
                "shop-2023-02-10.bak" [DeleteFile "shop-2023-01-15.sql"])
      as [Hnone _]; try (vm_compute; reflexivity).
    apply Hnone. vm_compute. reflexivity.
  - destruct (parse_failure_aborts_cleanup (Demo.env 1) (Demo.self 1)
                Demo.shop
                (Demo.dir ["shop-2023-01-15.sql"; "shop-2023-02-1x.sql";
                           "shop-2023-02-20.sql"; "shop-2023-03-05.sql"])
                (Demo.dir ["shop-2023-01-15.sql"; "shop-2023-02-1x.sql";
                           "shop-2023-02-20.sql"; "shop-2023-03-05.sql"])
                (Demo.dir ["shop-2023-02-1x.sql"; "shop-2023-02-20.sql";
                           "shop-2023-03-05.sql"])
                ["shop-2023-01-15.sql"; "shop-2023-02-1x.sql";
                 "shop-2023-02-20.sql"; "shop-2023-03-05.sql"]
                ["shop-2023-01-15.sql"] ["shop-2023-02-20.sql"]
                "shop-2023-02-1x.sql" [DeleteFile "shop-2023-01-15.sql"])
      as [_ Hdate]; try (vm_compute; reflexivity).
    apply (Hdate "2023-02-1x" []); vm_compute; reflexivity.
Defined.

(** C5 fails as stated.  The storage refuses to delete the first
    candidate.  The pass ends with that [StorageError]; the deletion of the
    next candidate is not attempted. *)
Lemma failed_delete_aborts_cleanup :
  let w := {| Demo.files := ["shop-2023-01-15.sql"; "shop-2023-02-20.sql";
                             "shop-2023-03-05.sql"];
              Demo.today := "2023-03-06"; Demo.read_only := false;
              Demo.locked := ["shop-2023-01-15.sql"];
              Demo.offline := [] |} in
  candidates (Demo.self 1) (Demo.files w)
    = ["shop-2023-01-15.sql"; "shop-2023-02-20.sql"] /\
  parse_timestamp (Demo.env 1) (Demo.self 1) "shop-2023-02-20.sql"
    = Ok (Py.mk_datetime 2023 2 20 0 0 0) /\
  _cleanup_old_backups (Demo.env 1) (Demo.self 1) Demo.shop w
  = (Raise (StorageError "cannot delete"), w,
     [LogInfo "Cleaning Old Backups for: %s" ["shop"]; ListDirectory;
      DeleteFile "shop-2023-01-15.sql"]).
Proof. repeat split; vm_compute; reflexivity. Qed.

(** C5, as amended.  When the storage raises while deleting a candidate, the
    cleanup pass ends there with that exception: the candidates sorted
    before it have been processed, the failing delete is the last entry of
    the trace, and no candidate after it is handed to the storage. *)
Theorem delete_failure_aborts_cleanup {World : Type} (env : Env World)
    (self : Self.t World) (database : Database) (w w1 w2 w3 : World)
    (listing before after : list string) (filepath : string)
    (dateTime : Py.datetime) (e : exn) (t : list event) :
  Storage.list_directory (Self.storage self) w = (Ok listing, w1) ->
  candidates self listing = before ++ filepath :: after ->
  for_each before (cleanup_entry env self) w1 = (Ok tt, w2, t) ->
  parse_timestamp env self filepath = Ok dateTime ->
  Py.day dateTime <> 1%nat ->
  Storage.delete_file (Self.storage self) filepath w2 = (Raise e, w3) ->
  _cleanup_old_backups env self database w
    = (Raise e, w3,
       cleanup_header database ++ t ++ deleting_log self filepath
         ++ [DeleteFile filepath]).
Proof.
  intros Hlist Hcand Hbefore Hparse Hday Hdel.
  rewrite cleanup_spec, Hlist, Hcand.
  erewrite for_each_abort; [reflexivity | exact Hbefore |].
  rewrite cleanup_entry_spec, Hparse.
  destruct (Nat.eqb_spec (Py.day dateTime) 1) as [| _]; [contradiction |].
  now rewrite Hdel.
Qed.

Lemma delete_failure_aborts_cleanup_witness :
  let w := {| Demo.files := ["shop-2023-01-15.sql"; "shop-2023-02-20.sql";
                             "shop-2023-02-25.sql"; "shop-2023-03-05.sql"];
              Demo.today := "2023-03-06"; Demo.read_only := false;
              Demo.locked := ["shop-2023-02-20.sql"];
              Demo.offline := [] |} in
  let w2 := {| Demo.files := ["shop-2023-02-20.sql"; "shop-2023-02-25.sql";
                              "shop-2023-03-05.sql"];
               Demo.today := "2023-03-06"; Demo.read_only := false;
               Demo.locked := ["shop-2023-02-20.sql"];
               Demo.offline := [] |} in
  _cleanup_old_backups (Demo.env 1) (Demo.self 1) Demo.shop w
  = (Raise (StorageError "cannot delete"), w2,
     cleanup_header Demo.shop ++ [DeleteFile "shop-2023-01-15.sql"]
       ++ deleting_log (Demo.self 1) "shop-2023-02-20.sql"
       ++ [DeleteFile "shop-2023-02-20.sql"]).
Proof.
  intros w w2.
  apply (delete_failure_aborts_cleanup (Demo.env 1) (Demo.self 1) Demo.shop
           w w w2 w2 (Demo.files w)
           ["shop-2023-01-15.sql"] ["shop-2023-02-25.sql"]
           "shop-2023-02-20.sql" (Py.mk_datetime 2023 2 20 0 0 0));
    try (vm_compute; reflexivity).
  vm_compute. discriminate.
Defined.

(** ** The loop of [handle] *)

(** The [try] statement of [handle]: its body's outcome, with a
    [StorageError] turned into a [CommandError]. *)
Lemma try_except_StorageError {World : Type} (m : M World unit) (w : World) :
  try_except m except_StorageError w =
  match m w with
  | (Ok a, w1, t1) => (Ok a, w1, t1)
  | (Raise e, w1, t1) => (Raise (reraised e), w1, t1)
  end.
Proof.
  unfold try_except.
  destruct (m w) as [[[a | e] w1] t1]; [reflexivity |].
  destruct e; cbn; try reflexivity.
  now rewrite app_nil_r.
Qed.

Section HandleFacts.
Context {World : Type} (env : Env World) (options : Options.t).

(** One turn of the loop, once the database is found in the settings. *)
Lemma handle_database_spec (database_key : string) (database : Database)
    (w : World) :
  lookup database_key (settings_DATABASES env) = Some database ->
  handle_database env options database_key w =
  let self := configure env options database_key database in
  try_except
    (_save_new_backup env self database ;;
     when (Self.clean self) (_cleanup_old_backups env self database))
    except_StorageError w.
Proof.
  intros Hdb. unfold handle_database.
  rewrite Hdb. cbn [or_raise].
  unfold bind at 1. cbn [ret].
  unfold bind at 1. cbn [ret].
  cbv zeta.
  destruct (try_except _ _ w) as [[r w1] t1]. reflexivity.
Qed.

Lemma handle_database_missing (database_key : string) (w : World) :
  lookup database_key (settings_DATABASES env) = None ->
  handle_database env options database_key w
    = (Raise (KeyError database_key), w, []).
Proof.
  intros Hdb. unfold handle_database. now rewrite Hdb.
Qed.

End HandleFacts.

(** ** Saving a backup *)

Section SaveFacts.
Context {World : Type} (env : Env World) (self : Self.t World).

(** The write step, by destination. *)
Lemma store_spec (outputfile : stream) (filename : string) (w : World) :
  store env self outputfile filename w =
  match Self.path self with
  | None =>
      let '(r, w1) :=
        Storage.write_file (Self.storage self) outputfile filename w in
      (r, w1,
       [LogInfo "Writing file to %s: %s, filename: %s"
          [Storage.name (Self.storage self);
           Storage.backup_dir (Self.storage self); filename];
        WriteFile outputfile filename])
  | Some path =>
      let '(r, w1) := copy_to_path env outputfile path w in
      (r, w1,
       [LogInfo "Writing file to %s" [path];
        WriteLocalFile outputfile path])
  end.
Proof.
  unfold store, write_local_file, bind, logger_info, call.
  destruct (Self.path self) as [path |].
  - destruct (copy_to_path env outputfile path w) as [r w1]. reflexivity.
  - destruct (Storage.write_file _ _ _ w) as [r w1]. reflexivity.
Qed.



(** The stages never touch the storage. *)
Lemma transform_no_cleanup_event (outputfile : stream) (filename : string)
    (w : World) (ev : event) :
  In ev (trace (transform env self outputfile filename) w) ->
  cleanup_event ev = false.
Proof.
  unfold trace, transform, compress_file, encrypt_file, bind, call, ret.
  destruct (Self.compress self), (Self.encrypt self); cbn;
    repeat match goal with
           | |- context [compress_stream env ?o ?w] =>
               destruct (compress_stream env o w) as [[? | ?] ?]; cbn
           | |- context [encrypt_stream env ?o ?w] =>
               destruct (encrypt_stream env o w) as [[? | ?] ?]; cbn
           end;
    intuition (subst; reflexivity).
Qed.

(** What the size log traces: the call to [handle_size] and a log entry. *)
Lemma log_size_events (outputfile : stream) (w : World) (ev : event) :
  In ev (trace (log_size env self outputfile) w) ->
  ev = HandleSize outputfile \/ exists fmt args, ev = LogInfo fmt args.
Proof.
  unfold trace, log_size, when, bind, call, logger_info, ret.
  destruct (Self.quiet self); cbn [negb]; [intros [] |].
  destruct (handle_size env outputfile w) as [[size | e] w1]; cbn.
  - intros [<- | [<- | []]]; eauto.
  - intros [<- | []]; eauto.
Qed.

(** A quiet command does not ask for the size. *)
Lemma log_size_quiet (outputfile : stream) (w : World) :
  Self.quiet self = true -> log_size env self outputfile w = (Ok tt, w, []).
Proof.
  intros Hq. unfold log_size. now rewrite Hq.
Qed.

(** [_save_new_backup], step by step. *)
Lemma save_spec (database : Database) (w : World) :
  _save_new_backup env self database w =
  match DBCommandsT.filename (Self.dbcommands self) (Self.servername self) w with
  | (Raise e, w0) => (Raise e, w0, backing_up_log self database)
  | (Ok name, w0) =>
      match Connector.create_dump (Self.connector self) w0 with
      | (Raise e, w1) =>
          (Raise e, w1, backing_up_log self database ++ [CreateDump])
      | (Ok dump, w1) =>
          match transform env self dump name w1 with
          | (Raise e, w2, tr) =>
              (Raise e, w2, backing_up_log self database ++ [CreateDump] ++ tr)
          | (Ok (outputfile, filename), w2, tr) =>
              match log_size env self outputfile w2 with
              | (Raise e, w3, tl) =>
                  (Raise e, w3,
                   backing_up_log self database ++ [CreateDump] ++ tr ++ tl)
              | (Ok _, w3, tl) =>
                  let '(r, w4, ts) :=
                    store env self outputfile
                      (if_else (Self.filename self) (fun s => s) filename) w3 in
                  (r, w4,
                   backing_up_log self database ++ [CreateDump] ++ tr
                     ++ tl ++ ts)
              end
          end
      end
  end.
Proof.
  unfold _save_new_backup, backing_up_log.
  unfold bind at 1. unfold when at 1. unfold logger_info, ret.
  destruct (Self.quiet self); cbn [negb];
    unfold bind at 1; unfold peek;
    destruct (DBCommandsT.filename _ _ w) as [[name | e] w0]; try reflexivity;
    unfold bind at 1; unfold call at 1;
    destruct (Connector.create_dump _ w0) as [[dump | e] w1]; try reflexivity;
    unfold bind at 1;
    destruct (transform env self dump name w1) as [[[[o f] | e] w2] tr];
    try reflexivity;
    unfold bind at 1;
    destruct (log_size env self o w2) as [[[[] | e] w3] tl]; try reflexivity;
    destruct (store env self o _ w3) as [[r w4] ts]; reflexivity.
Qed.

Lemma store_no_cleanup_event (outputfile : stream) (filename : string)
    (w : World) (ev : event) :
  In ev (trace (store env self outputfile filename) w) ->
  cleanup_event ev = false.
Proof.
  unfold trace. rewrite store_spec.
  destruct (Self.path self) as [path |].
  - destruct (copy_to_path env outputfile path w) as [r w1].
    cbn. intuition (subst; reflexivity).
  - destruct (Storage.write_file _ _ _ w) as [r w1].
    cbn. intuition (subst; reflexivity).
Qed.

(** The stages trace their own calls and nothing else. *)
Lemma transform_stage_events (outputfile : stream) (filename : string)
    (w : World) (ev : event) :
  In ev (trace (transform env self outputfile filename) w) ->
  exists i n, ev = CompressFile i n \/ ev = EncryptFile i n.
Proof.
  unfold trace, transform, compress_file, encrypt_file, bind, call, ret.
  destruct (Self.compress self), (Self.encrypt self); cbn;
    repeat match goal with
           | |- context [compress_stream env ?o ?w] =>
               destruct (compress_stream env o w) as [[? | ?] ?]; cbn
           | |- context [encrypt_stream env ?o ?w] =>
               destruct (encrypt_stream env o w) as [[? | ?] ?]; cbn
           end;
    intuition (subst; eauto).
Qed.

(** Where an entry of the trace of [_save_new_backup] comes from: the first
    log entry, the dump, the stages, the size log, or the write step, which
    is reached only when all that precedes it has returned. *)
Lemma save_event_inv (database : Database) (w : World) (ev : event) :
  In ev (trace (_save_new_backup env self database) w) ->
  In ev (backing_up_log self database) \/ ev = CreateDump \/
  exists name w0,
    DBCommandsT.filename (Self.dbcommands self) (Self.servername self) w
      = (Ok name, w0) /\
    exists dump w1,
      Connector.create_dump (Self.connector self) w0 = (Ok dump, w1) /\
      (In ev (trace (transform env self dump name) w1) \/
       exists outputfile filename w2 tr,
         transform env self dump name w1 = (Ok (outputfile, filename), w2, tr) /\
         (In ev (trace (log_size env self outputfile) w2) \/
          exists w3 tl,
            log_size env self outputfile w2 = (Ok tt, w3, tl) /\
            In ev (trace (store env self outputfile
                            (if_else (Self.filename self) (fun s => s) filename))
                     w3))).
Proof.
  unfold trace at 1. rewrite save_spec.
  destruct (DBCommandsT.filename _ _ w) as [[name | e] w0] eqn:Hn; cbn [snd];
    [| now left].
  destruct (Connector.create_dump _ w0) as [[dump | e] w1] eqn:Hd; cbn [snd].
  2: { intros H. apply in_app_or in H. destruct H as [H | [<- | []]]; auto. }
  assert (Hhead : forall rest,
             In ev (backing_up_log self database ++ [CreateDump] ++ rest) ->
             In ev (backing_up_log self database) \/ ev = CreateDump \/
             In ev rest).
  { intros rest H. apply in_app_or in H. destruct H as [H | [<- | H]]; auto. }
  destruct (transform env self dump name w1) as [[[[o f] | e] w2] tr] eqn:Ht;
    cbn [snd].
  2: { intros H. apply Hhead in H. destruct H as [H | [H | H]]; auto.
       right; right. exists name, w0. split; [reflexivity |].
       exists dump, w1. split; [exact Hd |]. left.
       unfold trace. now rewrite Ht. }
  destruct (log_size env self o w2) as [[[[] | e] w3] tl] eqn:Hl; cbn [snd].
  - destruct (store env self o _ w3) as [[r w4] ts] eqn:Hs. cbn [snd].
    intros H. apply Hhead in H. destruct H as [H | [H | H]]; auto.
    apply (in_app_or tr) in H. destruct H as [H | H].
    { right; right. exists name, w0. split; [reflexivity |].
      exists dump, w1. split; [exact Hd |]. left.
      unfold trace. now rewrite Ht. }
    right; right. exists name, w0. split; [reflexivity |].
    exists dump, w1. split; [exact Hd |]. right.
    exists o, f, w2, tr. split; [exact Ht |].
    apply (in_app_or tl) in H. destruct H as [H | H].
    + left. unfold trace. now rewrite Hl.
    + right. exists w3, tl. split; [exact Hl |].
      unfold trace. now rewrite Hs.
  - intros H. apply Hhead in H. destruct H as [H | [H | H]]; auto.
    right; right. exists name, w0. split; [reflexivity |].
    exists dump, w1. split; [exact Hd |].
    apply (in_app_or tr) in H. destruct H as [H | H].
    + left. unfold trace. now rewrite Ht.
    + right. exists o, f, w2, tr. split; [exact Ht |].
      left. unfold trace. now rewrite Hl.
Qed.

(** Saving a backup lists nothing and deletes nothing. *)
Lemma save_no_cleanup_event (database : Database) (w : World) (ev : event) :
  In ev (trace (_save_new_backup env self database) w) ->
  cleanup_event ev = false.
Proof.
  intros H. apply save_event_inv in H.
  destruct H as [H | [-> | (name & w0 & _ & dump & w1 & _ & [H | H])]].
  - unfold backing_up_log in H. destruct (Self.quiet self); [destruct H |].
    destruct H as [<- | []]. reflexivity.
  - reflexivity.
  - eapply transform_no_cleanup_event. exact H.
  - destruct H as (o & f & w2 & tr & _ & [H | (w3 & tl & _ & H)]).
    + apply log_size_events in H.
      destruct H as [-> | (fmt & args & ->)]; reflexivity.
    + eapply store_no_cleanup_event. exact H.
Qed.

(** A write in the trace of [_save_new_backup] is the one of its last
    statement: the name, the dump, the stages and the size log have
    returned, and what is written is the stream the stages returned. *)
Lemma save_write_inv (database : Database) (w : World) (ev : event) :
  In ev (trace (_save_new_backup env self database) w) ->
  write_event ev = true ->
  exists name w0 dump w1 outputfile filename w2 tr,
    DBCommandsT.filename (Self.dbcommands self) (Self.servername self) w
      = (Ok name, w0) /\
    Connector.create_dump (Self.connector self) w0 = (Ok dump, w1) /\
    transform env self dump name w1 = (Ok (outputfile, filename), w2, tr) /\
    ev = match Self.path self with
         | None =>
             WriteFile outputfile
               (if_else (Self.filename self) (fun s => s) filename)
         | Some path => WriteLocalFile outputfile path
         end.
Proof.
  intros H Hw. apply save_event_inv in H.
  destruct H as [H | [-> | (name & w0 & Hn & dump & w1 & Hd & [H | H])]].
  - unfold backing_up_log in H. destruct (Self.quiet self); [destruct H |].
    destruct H as [<- | []]. discriminate.
  - discriminate.
  - apply transform_stage_events in H.
    destruct H as (i & n & [-> | ->]); discriminate.
  - destruct H as (o & f & w2 & tr & Ht & [H | (w3 & tl & _ & H)]).
    + apply log_size_events in H.
      destruct H as [-> | (fmt & args & ->)]; discriminate.
    + exists name, w0, dump, w1, o, f, w2, tr.
      split; [exact Hn |]. split; [exact Hd |]. split; [exact Ht |].
      unfold trace in H. rewrite store_spec in H.
      destruct (Self.path self) as [path |].
      * destruct (copy_to_path env o path w3) as [r w4]. cbn in H.
        destruct H as [<- | [<- | []]]; [discriminate | reflexivity].
      * destruct (Storage.write_file _ _ _ w3) as [r w4]. cbn in H.
        destruct H as [<- | [<- | []]]; [discriminate | reflexivity].
Qed.


End SaveFacts.







(** ** The run over the configured databases *)

(** C3 fails as stated.  Two databases are configured and the dump of
    the first one fails.  The run ends with that exception after the first
    dump: the second database is not attempted, although its backup would
    succeed. *)
Lemma dump_failure_stops_the_run :
  let options :=
    {| Options.verbosity := 1; Options.quiet := false; Options.clean := false;
       Options.database := None; Options.servername := None;
       Options.compress := false; Options.encrypt := false;
       Options.output_filename := None; Options.output_path := None |} in
  let w := {| Demo.files := []; Demo.today := "2023-03-06";
              Demo.read_only := false; Demo.locked := [];
              Demo.offline := ["default"] |} in
  database_keys (Demo.env 1) options = ["default"; "events"] /\
  result (handle_database (Demo.env 1) options "events") w = Ok tt /\
  handle (Demo.env 1) options w
  = (Raise (OtherError "dump failed"), w,
     [LogInfo "Backing Up Database: %s" ["shop"]; CreateDump]).
Proof. repeat split; vm_compute; reflexivity. Qed.

(** C3, as amended.  When saving the backup of one database raises, the run
    ends there: the exception leaves [handle] (a [StorageError] as a
    [CommandError], any other exception as it is), the trace ends with what
    that database's save traced, and no database configured after it is
    attempted. *)
Theorem failure_ends_the_run {World : Type} (env : Env World)
    (options : Options.t) (w w1 w2 : World)
    (before after : list string) (database_key : string)
    (database : Database) (e : exn) (t1 t2 : list event) :
  database_keys env options = before ++ database_key :: after ->
  for_each before (handle_database env options) w = (Ok tt, w1, t1) ->
  lookup database_key (settings_DATABASES env) = Some database ->
  _save_new_backup env (configure env options database_key database)
    database w1 = (Raise e, w2, t2) ->
  handle env options w = (Raise (reraised e), w2, t1 ++ t2).
Proof.
  intros Hkeys Hbefore Hdb Hsave.
  unfold handle. rewrite Hkeys.
  eapply for_each_abort; [exact Hbefore |].
  rewrite (handle_database_spec env options _ _ _ Hdb). cbv zeta.
  rewrite try_except_StorageError.
  erewrite bind_raise by exact Hsave. reflexivity.
Qed.

Lemma failure_ends_the_run_witness :
  let w := {| Demo.files := []; Demo.today := "2023-03-06";
              Demo.read_only := false; Demo.locked := [];
              Demo.offline := ["events"] |} in
  let w1 := {| Demo.files := ["shop-2023-03-06.sql"];
               Demo.today := "2023-03-06";
               Demo.read_only := false; Demo.locked := [];
               Demo.offline := ["events"] |} in
  let options :=
    {| Options.verbosity := 1; Options.quiet := true; Options.clean := false;
       Options.database := None; Options.servername := None;
       Options.compress := false; Options.encrypt := false;
       Options.output_filename := None; Options.output_path := None |} in
  handle (Demo.env 1) options w
  = (Raise (reraised (OtherError "dump failed")), w1,
     [CreateDump;
      LogInfo "Writing file to %s: %s, filename: %s"
        ["memory"; "/backups"; "shop-2023-03-06.sql"];
      WriteFile [Byte.x53; Byte.x51; Byte.x4c] "shop-2023-03-06.sql"]
     ++ [CreateDump]).
Proof.
  intros w w1 options.
  apply (failure_ends_the_run (Demo.env 1) options w w1 w1
           ["default"] [] "events"
           {| NAME := "logs"; ENGINE := "django_mongodb_engine" |});
    reflexivity.
Defined.

(** With a keep count of zero the slice [filepaths[0:-0]] is empty: the
    cleanup pass lists the directory and deletes nothing. *)
Lemma cleanup_zero_keep {World : Type} (env : Env World)
    (self : Self.t World) (database : Database) (w : World) :
  Self.clean_keep self = 0%Z ->
  _cleanup_old_backups env self database w =
  let '(r, w1) := Storage.list_directory (Self.storage self) w in
  (match r with Ok _ => Ok tt | Raise e => Raise e end,
   w1, cleanup_header database).
Proof.
  intros Hk. rewrite cleanup_spec.
  destruct (Storage.list_directory (Self.storage self) w) as [[listing | e] w1];
    [| reflexivity].
  unfold candidates. rewrite Hk, slice_to_zero. reflexivity.
Qed.

(** What one turn of the loop of [handle] traces, with a keep count of
    zero, holds no delete. *)
Lemma handle_database_zero_keep {World : Type} (env : Env World)
    (options : Options.t) (database_key : string) (w : World) (f : string) :
  CLEANUP_KEEP env = 0%Z ->
  ~ In (DeleteFile f) (trace (handle_database env options database_key) w).
Proof.
  intros Hk. unfold trace.
  destruct (lookup database_key (settings_DATABASES env)) as [db |] eqn:Hdb.
  2: { rewrite handle_database_missing by assumption. intros []. }
  rewrite (handle_database_spec env options _ _ _ Hdb). cbv zeta.
  rewrite try_except_StorageError.
  set (self := configure env options database_key db).
  assert (Hbody : ~ In (DeleteFile f)
             (trace (_save_new_backup env self db ;;
                     when (Self.clean self) (_cleanup_old_backups env self db)) w)).
  { intros Hin. apply trace_bind_in in Hin.
    destruct Hin as [Hin | (a & w1 & t1 & _ & Hin)].
    - apply save_no_cleanup_event in Hin. discriminate Hin.
    - unfold when, trace in Hin. destruct (Self.clean self); [| destruct Hin].
      rewrite cleanup_zero_keep in Hin by exact Hk.
      destruct (Storage.list_directory (Self.storage self) w1) as [r w2].
      cbn in Hin. destruct Hin as [H | [H | []]]; discriminate H. }
  unfold trace in Hbody.
  destruct ((_save_new_backup env self db ;; _) w) as [[[a | e] w1] t1];
    exact Hbody.
Qed.

(** A negative keep count turns the slice into [filepaths[0:n]]: here the
    backup of the second database, just written, is deleted. *)
Example negative_keep_count_run :
  trace (handle (Demo.env (-1)) Demo.options) (Demo.dir [])
  = [CreateDump;
     LogInfo "Writing file to %s: %s, filename: %s"
       ["memory"; "/backups"; "shop-2023-03-06.sql"];
     WriteFile [Byte.x53; Byte.x51; Byte.x4c] "shop-2023-03-06.sql";
     LogInfo "Cleaning Old Backups for: %s" ["shop"]; ListDirectory;
     DeleteFile "shop-2023-03-06.sql";
     CreateDump;
     LogInfo "Writing file to %s: %s, filename: %s"
       ["memory"; "/backups"; "logs-2023-03-06.sql"];
     WriteFile [Byte.x53; Byte.x51; Byte.x4c] "logs-2023-03-06.sql";
     LogInfo "Cleaning Old Backups for: %s" ["logs"]; ListDirectory;
     DeleteFile "logs-2023-03-06.sql"].
Proof. vm_compute. reflexivity. Qed.

(** C4 fails as stated.  A keep count of zero with cleanup enabled.
    The run is not rejected: it writes the new backups to the storage,
    lists the directory and returns normally. *)
Lemma zero_keep_count_is_accepted :
  Options.clean Demo.options = true /\
  CLEANUP_KEEP (Demo.env 0) = 0%Z /\
  handle (Demo.env 0) Demo.options (Demo.dir ["shop-2023-01-15.sql"])
  = (Ok tt,
     Demo.dir ["shop-2023-01-15.sql"; "shop-2023-03-06.sql";
               "logs-2023-03-06.sql"],
     [CreateDump;
      LogInfo "Writing file to %s: %s, filename: %s"
        ["memory"; "/backups"; "shop-2023-03-06.sql"];
      WriteFile [Byte.x53; Byte.x51; Byte.x4c] "shop-2023-03-06.sql";
      LogInfo "Cleaning Old Backups for: %s" ["shop"]; ListDirectory;
      CreateDump;
      LogInfo "Writing file to %s: %s, filename: %s"
        ["memory"; "/backups"; "logs-2023-03-06.sql"];
      WriteFile [Byte.x53; Byte.x51; Byte.x4c] "logs-2023-03-06.sql";
      LogInfo "Cleaning Old Backups for: %s" ["logs"]; ListDirectory]).
Proof. repeat split; vm_compute; reflexivity. Qed.

(** C4, as amended.  With a keep count of zero and cleanup enabled the run is
    not rejected: a database whose backup is saved and whose directory
    listing succeeds is processed to the end, the cleanup pass adding its
    log entry and the listing to the trace; and nowhere in the run is the
    storage asked to delete a file. *)
Theorem zero_keep_count_lists_and_deletes_nothing {World : Type}
    (env : Env World) (options : Options.t) (database_key : string)
    (database : Database) (w w1 w2 : World) (ts : list event)
    (listing : list string) :
  CLEANUP_KEEP env = 0%Z ->
  Options.clean options = true ->
  lookup database_key (settings_DATABASES env) = Some database ->
  _save_new_backup env (configure env options database_key database)
    database w = (Ok tt, w1, ts) ->
  Storage.list_directory (storage_factory env) w1 = (Ok listing, w2) ->
  handle_database env options database_key w
    = (Ok tt, w2, ts ++ cleanup_header database)
  /\ forall (w' : World) (f : string),
       ~ In (DeleteFile f) (trace (handle env options) w').
Proof.
  intros Hk Hclean Hdb Hsave Hlist. split.
  - rewrite (handle_database_spec env options _ _ _ Hdb). cbv zeta.
    rewrite try_except_StorageError.
    set (self := configure env options database_key database) in *.
    assert (Hbody :
              (_save_new_backup env self database ;;
               when (Self.clean self) (_cleanup_old_backups env self database)) w
              = (Ok tt, w2, ts ++ cleanup_header database)).
    { eapply bind_ok; [exact Hsave |].
      change (Self.clean self) with (Options.clean options).
      rewrite Hclean. cbn [when].
      rewrite cleanup_zero_keep by exact Hk.
      change (Self.storage self) with (storage_factory env).
      now rewrite Hlist. }
    now rewrite Hbody.
  - intros w' f Hin. unfold handle in Hin.
    apply for_each_trace_in in Hin.
    destruct Hin as (key & w0 & _ & Hin).
    exact (handle_database_zero_keep env options key w0 f Hk Hin).
Qed.

Lemma zero_keep_count_lists_and_deletes_nothing_witness :
  handle_database (Demo.env 0) Demo.options "default"
    (Demo.dir ["shop-2023-01-15.sql"])
  = (Ok tt, Demo.dir ["shop-2023-01-15.sql"; "shop-2023-03-06.sql"],
     [CreateDump;
      LogInfo "Writing file to %s: %s, filename: %s"
        ["memory"; "/backups"; "shop-2023-03-06.sql"];
      WriteFile [Byte.x53; Byte.x51; Byte.x4c] "shop-2023-03-06.sql"]
     ++ cleanup_header Demo.shop)
  /\ forall (w' : Demo.world) (f : string),
       ~ In (DeleteFile f) (trace (handle (Demo.env 0) Demo.options) w').
Proof.
  apply (zero_keep_count_lists_and_deletes_nothing (Demo.env 0) Demo.options
           "default" Demo.shop
           (Demo.dir ["shop-2023-01-15.sql"])
           (Demo.dir ["shop-2023-01-15.sql"; "shop-2023-03-06.sql"])
           (Demo.dir ["shop-2023-01-15.sql"; "shop-2023-03-06.sql"])
           _ ["shop-2023-01-15.sql"; "shop-2023-03-06.sql"]);
    reflexivity.
Defined.

(** C10.  In the processing of one database, the storage is asked for a
    listing or a delete only if cleaning is enabled and the backup of that
    database has been saved without an exception; a save that raises, or
    cleaning disabled, leaves no cleanup call in the trace. *)
Theorem cleanup_only_after_saved_backup {World : Type} (env : Env World)
    (options : Options.t) (database_key : string) (w : World) (ev : event) :
  In ev (trace (handle_database env options database_key) w) ->
  cleanup_event ev = true ->
  Options.clean options = true /\
  exists database w1 t1,
    lookup database_key (settings_DATABASES env) = Some database /\
    _save_new_backup env (configure env options database_key database)
      database w = (Ok tt, w1, t1).
Proof.
  unfold trace.
  destruct (lookup database_key (settings_DATABASES env)) as [db |] eqn:Hdb.
  2: { rewrite handle_database_missing by assumption. intros []. }
  rewrite (handle_database_spec env options _ _ _ Hdb). cbv zeta.
  rewrite try_except_StorageError.
  set (self := configure env options database_key db).
  intros Hin Hev.
  assert (Hbody : In ev
             (trace (_save_new_backup env self db ;;
                     when (Self.clean self) (_cleanup_old_backups env self db)) w)).
  { unfold trace.
    destruct ((_save_new_backup env self db ;; _) w) as [[[a | e] w1] t1];
      exact Hin. }
  apply trace_bind_in in Hbody.
  destruct Hbody as [Hsave | ([] & w1 & t1 & Hsave & Hclean)].
  - apply save_no_cleanup_event in Hsave. congruence.
  - split.
    + change (Self.clean self) with (Options.clean options) in Hclean.
      destruct (Options.clean options); [reflexivity | destruct Hclean].
    + now exists db, w1, t1.
Qed.

Lemma cleanup_only_after_saved_backup_witness :
  Options.clean Demo.options = true /\
  exists database w1 t1,
    lookup "default" (settings_DATABASES (Demo.env 1)) = Some database /\
    _save_new_backup (Demo.env 1)
      (configure (Demo.env 1) Demo.options "default" database)
      database (Demo.dir []) = (Ok tt, w1, t1).
Proof.
  apply (cleanup_only_after_saved_backup (Demo.env 1) Demo.options "default"
           (Demo.dir []) ListDirectory).
  - vm_compute. tauto.
  - reflexivity.
Defined.

(** ** More on the order of strings and on subsequences *)

Lemma leb_trans (a b c : string) :
  String.leb a b = true -> String.leb b c = true -> String.leb a c = true.
Proof.
  revert b c. induction a as [| x a IH]; intros [| y b] [| z c];
    unfold String.leb; cbn; try congruence.
  specialize (IH b c). unfold String.leb in IH.
  unfold Ascii.compare.
  destruct (N.compare_spec (N_of_ascii x) (N_of_ascii y)) as [Exy | Lxy | Gxy];
    destruct (N.compare_spec (N_of_ascii y) (N_of_ascii z)) as [Eyz | Lyz | Gyz];
    destruct (N.compare_spec (N_of_ascii x) (N_of_ascii z)) as [Exz | Lxz | Gxz];
    try congruence; try lia; auto.
Qed.

Lemma sorted_strongly (l : list string) :
  StronglySorted (fun a b => String.leb a b = true) (Py.sorted l).
Proof.
  apply Sorted_StronglySorted.
  - intros a b c. apply leb_trans.
  - apply sorted_ascending.
Qed.

Lemma subseq_nil_l {A : Type} (l : list A) : subseq [] l.
Proof.
  induction l; constructor; assumption.
Qed.

Lemma subseq_refl {A : Type} (l : list A) : subseq l l.
Proof.
  induction l; constructor; assumption.
Qed.

Lemma subseq_in {A : Type} (l1 l2 : list A) (x : A) :
  subseq l1 l2 -> In x l1 -> In x l2.
Proof.
  induction 1; cbn; intuition.
Qed.

Lemma subseq_length {A : Type} (l1 l2 : list A) :
  subseq l1 l2 -> (List.length l1 <= List.length l2)%nat.
Proof.
  induction 1; cbn; lia.
Qed.

Lemma subseq_NoDup {A : Type} (l1 l2 : list A) :
  subseq l1 l2 -> NoDup l2 -> NoDup l1.
Proof.
  induction 1 as [| x l1 l2 Hs IH | x l1 l2 Hs IH]; intros Hnd.
  - constructor.
  - inversion Hnd; auto.
  - inversion Hnd as [| ? ? Hx Hl2]; subst. constructor; [| auto].
    intros Hin. apply Hx. eapply subseq_in; eassumption.
Qed.

Lemma subseq_StronglySorted {A : Type} (R : A -> A -> Prop) (l1 l2 : list A) :
  subseq l1 l2 -> StronglySorted R l2 -> StronglySorted R l1.
Proof.
  induction 1 as [| x l1 l2 Hs IH | x l1 l2 Hs IH]; intros Hst.
  - constructor.
  - inversion Hst; auto.
  - inversion Hst as [| ? ? Hl2 Hx]; subst. constructor; [auto |].
    rewrite Forall_forall in *. intros y Hy. apply Hx.
    eapply subseq_in; eassumption.
Qed.

Lemma slice_to_in {A : Type} (l : list A) (stop : Z) (x : A) :
  In x (Py.slice_to l stop) -> In x l.
Proof.
  unfold Py.slice_to. intros H.
  rewrite <- (firstn_skipn (Z.to_nat (if (stop <? 0)%Z
                                      then Z.max (stop + Z.of_nat (List.length l)) 0
                                      else Z.min stop (Z.of_nat (List.length l)))) l).
  apply in_or_app. now left.
Qed.

Lemma firstn_NoDup {A : Type} (n : nat) (l : list A) :
  NoDup l -> NoDup (firstn n l).
Proof.
  intros H. rewrite <- (firstn_skipn n l) in H.
  now apply NoDup_app_remove_r in H.
Qed.

(** ** What a cleanup pass deletes *)

Lemma deleted_app (t1 t2 : list event) :
  deleted (t1 ++ t2) = deleted t1 ++ deleted t2.
Proof.
  induction t1 as [| ev t1 IH]; cbn; [reflexivity |].
  destruct ev; cbn; now rewrite ?IH.
Qed.

Lemma deleted_in (t : list event) (f : string) :
  In f (deleted t) <-> In (DeleteFile f) t.
Proof.
  induction t as [| ev t IH]; cbn; [tauto |].
  destruct ev; cbn; rewrite IH; intuition (try discriminate; try congruence).
Qed.

Section DeletedFacts.
Context {World : Type} (env : Env World) (self : Self.t World).

(** One iteration deletes its entry when the test lets it, and nothing
    else. *)
Lemma cleanup_entry_deleted (filepath : string) (w : World) :
  deleted (trace (cleanup_entry env self filepath) w)
  = if unprotected env self filepath then [filepath] else [].
Proof.
  unfold trace, unprotected. rewrite cleanup_entry_spec.
  destruct (parse_timestamp env self filepath) as [dt | e]; [| reflexivity].
  destruct (Py.day dt =? 1)%nat; [reflexivity |].
  destruct (Storage.delete_file (Self.storage self) filepath w) as [r w1].
  cbn. rewrite deleted_app. unfold deleting_log.
  destruct (Self.quiet self); reflexivity.
Qed.

(** An iteration that returns has parsed its entry. *)
Lemma cleanup_entry_ok_parses (filepath : string) (w w1 : World)
    (t : list event) :
  cleanup_entry env self filepath w = (Ok tt, w1, t) ->
  exists dateTime, parse_timestamp env self filepath = Ok dateTime.
Proof.
  rewrite cleanup_entry_spec.
  destruct (parse_timestamp env self filepath) as [dt | e]; [eauto |].
  discriminate.
Qed.

(** The deletes of the loop follow the list it runs over. *)
Lemma for_each_deleted_subseq (l : list string) (w : World) :
  subseq (deleted (trace (for_each l (cleanup_entry env self)) w)) l.
Proof.
  revert w. induction l as [| x l IH]; intros w.
  - constructor.
  - pose proof (cleanup_entry_deleted x w) as Hx.
    unfold trace in *. cbn [for_each]. unfold bind.
    destruct (cleanup_entry env self x w) as [[[[] | e] w1] t1]; cbn in Hx |- *.
    + specialize (IH w1).
      destruct (for_each l (cleanup_entry env self) w1) as [[r w2] t2].
      cbn in IH |- *. rewrite deleted_app, Hx.
      destruct (unprotected env self x); cbn.
      * now apply subseq_keep.
      * now apply subseq_skip.
    + rewrite Hx. destruct (unprotected env self x).
      * apply subseq_keep, subseq_nil_l.
      * apply subseq_nil_l.
Qed.

(** A loop that returns has deleted every entry that passes the test. *)
Lemma for_each_deleted_ok (l : list string) (w w' : World) (t : list event) :
  for_each l (cleanup_entry env self) w = (Ok tt, w', t) ->
  deleted t = filter (unprotected env self) l.
Proof.
  revert w t. induction l as [| x l IH]; intros w t.
  - cbn. unfold ret. intros [= <- <-]. reflexivity.
  - pose proof (cleanup_entry_deleted x w) as Hx.
    unfold trace in Hx. cbn [for_each]. unfold bind.
    destruct (cleanup_entry env self x w) as [[[[] | e] w1] t1];
      [| discriminate].
    destruct (for_each l (cleanup_entry env self) w1) as [[r w2] t2] eqn:Hl.
    intros [= -> -> <-]. cbn in Hx.
    rewrite deleted_app, Hx, (IH _ _ Hl). cbn [filter].
    now destruct (unprotected env self x).
Qed.

(** A loop that returns has parsed every entry. *)
Lemma for_each_ok_parses (l : list string) (w w' : World) (t : list event) :
  for_each l (cleanup_entry env self) w = (Ok tt, w', t) ->
  Forall (fun f => exists dateTime, parse_timestamp env self f = Ok dateTime) l.
Proof.
  revert w t. induction l as [| x l IH]; intros w t; [constructor |].
  cbn [for_each]. unfold bind.
  destruct (cleanup_entry env self x w) as [[[[] | e] w1] t1] eqn:Hx;
    [| discriminate].
  destruct (for_each l (cleanup_entry env self) w1) as [[r w2] t2] eqn:Hl.
  intros [= -> -> <-]. constructor.
  - eapply cleanup_entry_ok_parses. exact Hx.
  - eapply IH. exact Hl.
Qed.

(** The deletes of a pass follow its candidates. *)
Lemma cleanup_deleted_subseq (database : Database) (w : World) :
  exists l,
    subseq (deleted (trace (_cleanup_old_backups env self database) w)) l /\
    match Storage.list_directory (Self.storage self) w with
    | (Ok listing, _) => l = candidates self listing
    | (Raise _, _) => l = []
    end.
Proof.
  unfold trace. rewrite cleanup_spec.
  destruct (Storage.list_directory (Self.storage self) w) as [[listing | e] w1].
  - exists (candidates self listing). split; [| reflexivity].
    pose proof (for_each_deleted_subseq (candidates self listing) w1) as H.
    unfold trace in H.
    destruct (for_each _ _ w1) as [[r w2] t]. cbn in *. exact H.
  - exists []. split; [constructor | reflexivity].
Qed.

End DeletedFacts.

(** X1.  Whatever the keep count, a file the pass deletes is one that
    [filter_filepaths] kept from the directory listing and whose timestamp
    parses to a day other than the first: names the filter drops are never
    deleted. *)
Theorem deleted_files_are_recognised {World : Type} (env : Env World)
    (self : Self.t World) (database : Database) (w : World) (f : string) :
  In (DeleteFile f) (trace (_cleanup_old_backups env self database) w) ->
  exists listing w1,
    Storage.list_directory (Self.storage self) w = (Ok listing, w1) /\
    In f (DBCommandsT.filter_filepaths (Self.dbcommands self) listing) /\
    unprotected env self f = true.
Proof.
  intros Hin. apply cleanup_delete_candidate in Hin.
  destruct Hin as (listing & w1 & Hlist & Hcand & dt & Hdt & Hday).
  exists listing, w1. split; [exact Hlist |]. split.
  - unfold candidates in Hcand. apply (proj1 (sorted_in _ _)) in Hcand.
    eapply slice_to_in; exact Hcand.
  - unfold unprotected. rewrite Hdt.
    now destruct (Nat.eqb_spec (Py.day dt) 1).
Qed.

Lemma deleted_files_are_recognised_witness :
  exists listing w1,
    Storage.list_directory (Self.storage (Demo.self 1))
      (Demo.dir ["notes.txt"; "shop-2023-01-15.sql"; "shop-2023-03-05.sql"])
    = (Ok listing, w1) /\
    In "shop-2023-01-15.sql"
       (DBCommandsT.filter_filepaths (Self.dbcommands (Demo.self 1)) listing) /\
    unprotected (Demo.env 1) (Demo.self 1) "shop-2023-01-15.sql" = true.
Proof.
  apply (deleted_files_are_recognised (Demo.env 1) (Demo.self 1) Demo.shop
           (Demo.dir ["notes.txt"; "shop-2023-01-15.sql"; "shop-2023-03-05.sql"])
           "shop-2023-01-15.sql").
  vm_compute. tauto.
Defined.

(** X2.  With a keep count [K] of at least one and [N] recognised names in
    the listing, a pass calls [delete_file] at most [N - K] times, whether
    it runs to its end or is cut short by an exception. *)
Theorem pass_deletes_at_most_the_surplus {World : Type} (env : Env World)
    (self : Self.t World) (database : Database) (w w1 : World)
    (listing : list string) :
  (1 <= Self.clean_keep self)%Z ->
  Storage.list_directory (Self.storage self) w = (Ok listing, w1) ->
  (List.length (deleted (trace (_cleanup_old_backups env self database) w))
   <= List.length (DBCommandsT.filter_filepaths (Self.dbcommands self) listing)
      - Z.to_nat (Self.clean_keep self))%nat.
Proof.
  intros Hk Hlist.
  destruct (cleanup_deleted_subseq env self database w) as (l & Hsub & Hl).
  rewrite Hlist in Hl. subst l.
  apply subseq_length in Hsub.
  unfold candidates in Hsub.
  rewrite (Permutation_length (sorted_perm _)) in Hsub.
  rewrite slice_to_keep, length_firstn in Hsub by assumption.
  lia.
Qed.

Lemma pass_deletes_at_most_the_surplus_witness :
  (List.length
     (deleted (trace (_cleanup_old_backups (Demo.env 2) (Demo.self 2) Demo.shop)
                 (Demo.dir ["shop-2023-01-15.sql"; "shop-2023-02-01.sql";
                            "shop-2023-02-20.sql"; "shop-2023-03-05.sql"])))
   <= List.length
        (DBCommandsT.filter_filepaths (Self.dbcommands (Demo.self 2))
           ["shop-2023-01-15.sql"; "shop-2023-02-01.sql";
            "shop-2023-02-20.sql"; "shop-2023-03-05.sql"])
      - Z.to_nat (Self.clean_keep (Demo.self 2)))%nat.
Proof.
  apply (pass_deletes_at_most_the_surplus (Demo.env 2) (Demo.self 2) Demo.shop
           _ (Demo.dir ["shop-2023-01-15.sql"; "shop-2023-02-01.sql";
                        "shop-2023-02-20.sql"; "shop-2023-03-05.sql"])).
  - cbn. lia.
  - reflexivity.
Defined.

(** X3.  The calls to [delete_file] of a pass come in ascending order of the
    file paths, whatever the order of the listing and wherever the pass
    stops. *)
Theorem deletes_in_ascending_order {World : Type} (env : Env World)
    (self : Self.t World) (database : Database) (w : World) :
  StronglySorted (fun a b => String.leb a b = true)
    (deleted (trace (_cleanup_old_backups env self database) w)).
Proof.
  destruct (cleanup_deleted_subseq env self database w) as (l & Hsub & Hl).
  eapply subseq_StronglySorted; [exact Hsub |].
  destruct (Storage.list_directory (Self.storage self) w) as [[listing | e] w1];
    subst l.
  - apply sorted_strongly.
  - constructor.
Qed.

(** X4.  When the recognised names of the listing are pairwise distinct, a
    pass never asks the storage to delete the same path twice. *)
Theorem no_file_deleted_twice {World : Type} (env : Env World)
    (self : Self.t World) (database : Database) (w w1 : World)
    (listing : list string) :
  Storage.list_directory (Self.storage self) w = (Ok listing, w1) ->
  NoDup (DBCommandsT.filter_filepaths (Self.dbcommands self) listing) ->
  NoDup (deleted (trace (_cleanup_old_backups env self database) w)).
Proof.
  intros Hlist Hnd.
  destruct (cleanup_deleted_subseq env self database w) as (l & Hsub & Hl).
  rewrite Hlist in Hl. subst l.
  eapply subseq_NoDup; [exact Hsub |].
  unfold candidates.
  eapply Permutation_NoDup; [apply Permutation_sym, sorted_perm |].
  unfold Py.slice_to. now apply firstn_NoDup.
Qed.

Lemma no_file_deleted_twice_witness :
  NoDup (deleted
           (trace (_cleanup_old_backups (Demo.env 1) (Demo.self 1) Demo.shop)
              (Demo.dir ["shop-2023-01-15.sql"; "shop-2023-02-20.sql";
                         "shop-2023-03-05.sql"]))).
Proof.
  apply (no_file_deleted_twice (Demo.env 1) (Demo.self 1) Demo.shop
           _ (Demo.dir ["shop-2023-01-15.sql"; "shop-2023-02-20.sql";
                        "shop-2023-03-05.sql"])
           ["shop-2023-01-15.sql"; "shop-2023-02-20.sql";
            "shop-2023-03-05.sql"]).
  - reflexivity.
  - vm_compute. repeat constructor; cbn; intuition discriminate.
Defined.

(** X5.  A pass that returns normally has asked the storage to delete
    exactly the candidates whose day is not the first of the month, each
    once, in the order of the sorted slice. *)
Theorem completed_pass_deletes_every_unprotected_candidate {World : Type}
    (env : Env World) (self : Self.t World) (database : Database)
    (w w' : World) (t : list event) :
  _cleanup_old_backups env self database w = (Ok tt, w', t) ->
  exists listing w1,
    Storage.list_directory (Self.storage self) w = (Ok listing, w1) /\
    Forall (fun f => exists dateTime, parse_timestamp env self f = Ok dateTime)
      (candidates self listing) /\
    deleted t = filter (unprotected env self) (candidates self listing).
Proof.
  rewrite cleanup_spec.
  destruct (Storage.list_directory (Self.storage self) w) as [[listing | e] w1];
    [| discriminate].
  destruct (for_each _ _ w1) as [[r w2] t2] eqn:Hloop.
  intros [= -> -> <-].
  exists listing, w1. split; [reflexivity |]. split.
  - eapply for_each_ok_parses. exact Hloop.
  - unfold cleanup_header. cbn [app deleted].
    eapply for_each_deleted_ok. exact Hloop.
Qed.

Lemma completed_pass_deletes_every_unprotected_candidate_witness :
  exists listing w1,
    Storage.list_directory (Self.storage (Demo.self 1))
      (Demo.dir ["shop-2023-02-20.sql"; "shop-2023-02-01.sql";
                 "shop-2023-01-15.sql"; "shop-2023-03-05.sql"])
    = (Ok listing, w1) /\
    Forall (fun f => exists dateTime,
                parse_timestamp (Demo.env 1) (Demo.self 1) f = Ok dateTime)
      (candidates (Demo.self 1) listing) /\
    deleted [LogInfo "Cleaning Old Backups for: %s" ["shop"]; ListDirectory;
             DeleteFile "shop-2023-01-15.sql"; DeleteFile "shop-2023-02-20.sql"]
    = filter (unprotected (Demo.env 1) (Demo.self 1))
        (candidates (Demo.self 1) listing).
Proof.
  apply (completed_pass_deletes_every_unprotected_candidate
           (Demo.env 1) (Demo.self 1) Demo.shop
           (Demo.dir ["shop-2023-02-20.sql"; "shop-2023-02-01.sql";
                      "shop-2023-01-15.sql"; "shop-2023-03-05.sql"])
           (Demo.dir ["shop-2023-02-01.sql"; "shop-2023-03-05.sql"])).
  vm_compute. reflexivity.
Defined.

(** ** What a run never does *)

Section RunFacts.
Context {World : Type} (env : Env World) (options : Options.t).

(** What a cleanup pass traces: log entries and storage calls for the
    listing and the deletes. *)
Lemma cleanup_events (self : Self.t World) (database : Database) (w : World)
    (ev : event) :
  In ev (trace (_cleanup_old_backups env self database) w) ->
  (exists fmt args, ev = LogInfo fmt args) \/ ev = ListDirectory
  \/ exists f, ev = DeleteFile f.
Proof.
  unfold _cleanup_old_backups. intros H.
  apply trace_bind_in in H. destruct H as [H | (a & w1 & t1 & _ & H)].
  { cbn in H. destruct H as [<- | []]. left. eauto. }
  apply trace_bind_in in H. destruct H as [H | (l & w2 & t2 & _ & H)].
  { unfold trace, call in H.
    destruct (Storage.list_directory (Self.storage self) w1) as [r w2].
    cbn in H. destruct H as [<- | []]. auto. }
  apply for_each_trace_in in H. destruct H as (x & w0 & _ & H).
  unfold trace in H. rewrite cleanup_entry_spec in H.
  destruct (parse_timestamp env self x) as [dt | e]; [| destruct H].
  destruct (Py.day dt =? 1)%nat; [destruct H |].
  destruct (Storage.delete_file (Self.storage self) x w0) as [r w3].
  cbn in H. apply in_app_or in H. unfold deleting_log in H.
  destruct H as [H | [<- | []]]; [| eauto].
  destruct (Self.quiet self); [destruct H |].
  destruct H as [<- | []]. left. eauto.
Qed.

(** An entry in the trace of one turn of the loop of [handle] comes from
    the save or, with cleaning enabled and the save done, from the
    cleanup pass. *)
Lemma handle_database_event (database_key : string) (w : World) (ev : event) :
  In ev (trace (handle_database env options database_key) w) ->
  exists database,
    lookup database_key (settings_DATABASES env) = Some database /\
    let self := configure env options database_key database in
    (In ev (trace (_save_new_backup env self database) w)
     \/ (Options.clean options = true /\
         exists w1, In ev (trace (_cleanup_old_backups env self database) w1))).
Proof.
  unfold trace at 1.
  destruct (lookup database_key (settings_DATABASES env)) as [db |] eqn:Hdb.
  2: { rewrite handle_database_missing by assumption. intros []. }
  rewrite (handle_database_spec env options _ _ _ Hdb). cbv zeta.
  rewrite try_except_StorageError.
  set (self := configure env options database_key db).
  intros Hin. exists db. split; [reflexivity |].
  assert (Hbody : In ev
             (trace (_save_new_backup env self db ;;
                     when (Self.clean self) (_cleanup_old_backups env self db)) w)).
  { unfold trace.
    destruct ((_save_new_backup env self db ;; _) w) as [[[a | e] w1] t1];
      exact Hin. }
  apply trace_bind_in in Hbody.
  destruct Hbody as [Hsave | ([] & w1 & t1 & _ & Hclean)]; [now left | right].
  change (Self.clean self) with (Options.clean options) in Hclean.
  destruct (Options.clean options); [| destruct Hclean].
  split; [reflexivity |]. now exists w1.
Qed.

End RunFacts.



(** X7.  Without the [clean] option a run never asks the storage for a
    listing or a delete, for any database and whatever else happens. *)
Theorem no_clean_no_cleanup_calls {World : Type} (env : Env World)
    (options : Options.t) (w : World) (ev : event) :
  Options.clean options = false ->
  In ev (trace (handle env options) w) ->
  cleanup_event ev = false.
Proof.
  intros Hclean Hin. unfold handle in Hin.
  apply for_each_trace_in in Hin. destruct Hin as (key & w0 & _ & Hin).
  apply handle_database_event in Hin.
  destruct Hin as (db & _ & [Hsave | [Hc _]]).
  - eapply save_no_cleanup_event. exact Hsave.
  - congruence.
Qed.

Lemma no_clean_no_cleanup_calls_witness :
  let options :=
    {| Options.verbosity := 1; Options.quiet := true; Options.clean := false;
       Options.database := None; Options.servername := None;
       Options.compress := false; Options.encrypt := false;
       Options.output_filename := None; Options.output_path := None |} in
  let ev := WriteFile [Byte.x53; Byte.x51; Byte.x4c] "shop-2023-03-06.sql" in
  In ev (trace (handle (Demo.env 1) options) (Demo.dir ["shop-2023-01-15.sql"]))
  /\ cleanup_event ev = false.
Proof.
  intros options ev. split; [vm_compute; tauto |].
  apply (no_clean_no_cleanup_calls (Demo.env 1) options
           (Demo.dir ["shop-2023-01-15.sql"])).
  - reflexivity.
  - vm_compute. tauto.
Defined.

(** X8.  A database key that [settings.DATABASES] does not hold ends the run
    with [KeyError] when its turn comes: the databases before it have been
    processed, nothing is dumped, written, listed or deleted for it or after
    it, and the exception is not turned into a [CommandError]. *)
Theorem unknown_database_key_raises_KeyError {World : Type} (env : Env World)
    (options : Options.t) (w w1 : World) (before after : list string)
    (database_key : string) (t1 : list event) :
  database_keys env options = before ++ database_key :: after ->
  for_each before (handle_database env options) w = (Ok tt, w1, t1) ->
  lookup database_key (settings_DATABASES env) = None ->
  handle env options w = (Raise (KeyError database_key), w1, t1).
Proof.
  intros Hkeys Hbefore Hdb.
  unfold handle. rewrite Hkeys.
  erewrite for_each_abort; [| exact Hbefore |].
  - now rewrite app_nil_r.
  - now apply handle_database_missing.
Qed.

Lemma unknown_database_key_raises_KeyError_witness :
  handle (Demo.env 1)
    {| Options.verbosity := 1; Options.quiet := true; Options.clean := true;
       Options.database := Some "archive"; Options.servername := None;
       Options.compress := false; Options.encrypt := false;
       Options.output_filename := None; Options.output_path := None |}
    (Demo.dir ["shop-2023-01-15.sql"])
  = (Raise (KeyError "archive"), Demo.dir ["shop-2023-01-15.sql"], []).
Proof.
  apply (unknown_database_key_raises_KeyError (Demo.env 1) _ _ _ [] []);
    reflexivity.
Defined.

(** ** What a run writes *)

Section WriteFacts.
Context {World : Type} (env : Env World).

(** The writes of a run are those of its saves. *)
Lemma handle_write_event (options : Options.t) (w : World) (ev : event) :
  In ev (trace (handle env options) w) ->
  write_event ev = true ->
  exists database_key database w0,
    In database_key (database_keys env options) /\
    lookup database_key (settings_DATABASES env) = Some database /\
    In ev (trace (_save_new_backup env
                    (configure env options database_key database) database) w0).
Proof.
  intros Hin Hw. unfold handle in Hin.
  apply for_each_trace_in in Hin. destruct Hin as (key & w0 & Hkey & Hin).
  apply handle_database_event in Hin.
  destruct Hin as (db & Hdb & [Hsave | [_ (w1 & Hc)]]).
  - exists key, db, w0. auto.
  - apply cleanup_events in Hc.
    destruct Hc as [(fmt & args & ->) | [-> | (f & ->)]]; discriminate.
Qed.

End WriteFacts.

(** X9.  Whatever a run writes, to the storage or to a local path, is the
    stream that the transform stages returned for the dump of one of its
    databases, made in that run: the name, the dump and the enabled stages
    have all returned before the write, and a failure of any of them leaves
    no write for that database. *)
Theorem written_artifact_is_transformed_dump {World : Type} (env : Env World)
    (options : Options.t) (w : World) (ev : event) :
  In ev (trace (handle env options) w) ->
  write_event ev = true ->
  exists database_key database w0 name w1 dump w2 outputfile filename w3 tr,
    In database_key (database_keys env options) /\
    lookup database_key (settings_DATABASES env) = Some database /\
    let self := configure env options database_key database in
    DBCommandsT.filename (Self.dbcommands self) (Self.servername self) w0
      = (Ok name, w1) /\
    Connector.create_dump (Self.connector self) w1 = (Ok dump, w2) /\
    transform env self dump name w2 = (Ok (outputfile, filename), w3, tr) /\
    ev = match Options.output_path options with
         | None =>
             WriteFile outputfile
               (if_else (Options.output_filename options) (fun s => s) filename)
         | Some path => WriteLocalFile outputfile path
         end.
Proof.
  intros Hin Hw.
  destruct (handle_write_event env options w ev Hin Hw)
    as (key & db & w0 & Hkey & Hdb & Hsave).
  destruct (save_write_inv env _ db w0 ev Hsave Hw)
    as (name & w1 & dump & w2 & o & f & w3 & tr & Hn & Hd & Ht & Hev).
  exists key, db, w0, name, w1, dump, w2, o, f, w3, tr.
  cbv zeta. auto 10.
Qed.

(** X10.  With an output path, a run never writes to the storage: every
    write of the run, for every database, goes to that one local path. *)
Theorem output_path_bypasses_storage {World : Type} (env : Env World)
    (options : Options.t) (w : World) (ev : event) (path : string) :
  Options.output_path options = Some path ->
  In ev (trace (handle env options) w) ->
  write_event ev = true ->
  exists outputfile, ev = WriteLocalFile outputfile path.
Proof.
  intros Hpath Hin Hw.
  destruct (handle_write_event env options w ev Hin Hw)
    as (key & db & w0 & _ & _ & Hsave).
  destruct (save_write_inv env _ db w0 ev Hsave Hw)
    as (name & w1 & dump & w2 & o & f & w3 & tr & _ & _ & _ & Hev).
  change (Self.path (configure env options key db))
    with (Options.output_path options) in Hev.
  rewrite Hpath in Hev. now exists o.
Qed.

(** X11.  With an explicit, non-empty output file name, every write of a
    run to the storage uses that name, for every database of the run. *)
Theorem explicit_filename_names_every_write {World : Type} (env : Env World)
    (options : Options.t) (w : World) (outputfile : stream)
    (filename name : string) :
  Options.output_filename options = Some name ->
  name <> "" ->
  In (WriteFile outputfile filename) (trace (handle env options) w) ->
  filename = name.
Proof.
  intros Hname Hne Hin.
  destruct (handle_write_event env options w _ Hin eq_refl)
    as (key & db & w0 & _ & _ & Hsave).
  destruct (save_write_inv env _ db w0 _ Hsave eq_refl)
    as (n & w1 & dump & w2 & o & f & w3 & tr & _ & _ & _ & Hev).
  change (Self.path (configure env options key db))
    with (Options.output_path options) in Hev.
  change (Self.filename (configure env options key db))
    with (Options.output_filename options) in Hev.
  destruct (Options.output_path options); [discriminate |].
  injection Hev as _ ->.
  rewrite Hname. unfold if_else.
  destruct (String.eqb_spec name ""); [contradiction | reflexivity].
Qed.

Lemma written_artifact_is_transformed_dump_witness :
  let dump := [Byte.x53; Byte.x51; Byte.x4c] in
  exists database_key database w0 name w1 dump' w2 outputfile filename w3 tr,
    In database_key (database_keys (Demo.env 1) Demo.options) /\
    lookup database_key (settings_DATABASES (Demo.env 1)) = Some database /\
    let self := configure (Demo.env 1) Demo.options database_key database in
    DBCommandsT.filename (Self.dbcommands self) (Self.servername self) w0
      = (Ok name, w1) /\
    Connector.create_dump (Self.connector self) w1 = (Ok dump', w2) /\
    transform (Demo.env 1) self dump' name w2
      = (Ok (outputfile, filename), w3, tr) /\
    WriteFile dump "logs-2023-03-06.sql"
    = match Options.output_path Demo.options with
      | None =>
          WriteFile outputfile
            (if_else (Options.output_filename Demo.options) (fun s => s)
               filename)
      | Some path => WriteLocalFile outputfile path
      end.
Proof.
  intros dump.
  apply (written_artifact_is_transformed_dump (Demo.env 1) Demo.options
           (Demo.dir [])).
  - vm_compute. tauto.
  - reflexivity.
Defined.

Lemma output_path_bypasses_storage_witness :
  let options :=
    {| Options.verbosity := 1; Options.quiet := true; Options.clean := true;
       Options.database := None; Options.servername := None;
       Options.compress := false; Options.encrypt := false;
       Options.output_filename := None;
       Options.output_path := Some "/tmp/dump.sql" |} in
  let ev := WriteLocalFile [Byte.x53; Byte.x51; Byte.x4c] "/tmp/dump.sql" in
  In ev (trace (handle (Demo.env 1) options) (Demo.dir []))
  /\ exists outputfile, ev = WriteLocalFile outputfile "/tmp/dump.sql".
Proof.
  intros options ev. split; [vm_compute; tauto |].
  apply (output_path_bypasses_storage (Demo.env 1) options (Demo.dir [])).
  - reflexivity.
  - vm_compute. tauto.
  - reflexivity.
Defined.

Lemma explicit_filename_names_every_write_witness :
  let options :=
    {| Options.verbosity := 1; Options.quiet := true; Options.clean := false;
       Options.database := None; Options.servername := None;
       Options.compress := true; Options.encrypt := false;
       Options.output_filename := Some "latest.bak";
       Options.output_path := None |} in
  let outputfile := [Byte.x1f; Byte.x8b; Byte.x53; Byte.x51; Byte.x4c] in
  In (WriteFile outputfile "latest.bak")
     (trace (handle (Demo.env 1) options) (Demo.dir []))
  /\ "latest.bak" = "latest.bak".
Proof.
  intros options outputfile. split; [vm_compute; tauto |].
  apply (explicit_filename_names_every_write (Demo.env 1) options
           (Demo.dir []) outputfile).
  - reflexivity.
  - discriminate.
  - vm_compute. tauto.
Defined.

(** ** The [quiet] option *)

Section QuietFacts.
Context {World : Type}.








End QuietFacts.




(** Why the condition on [handle_size] is there: when the call raises, a
    run that is not quiet ends before anything is written, while the same
    run with [quiet] writes both backups. *)
Example quiet_matters_when_size_is_unavailable :
  let env := size_unavailable (Demo.env 1) in
  handle env (with_quiet false Demo.options) (Demo.dir [])
  = (Raise (OtherError "size unavailable"), Demo.dir [],
     [LogInfo "Backing Up Database: %s" ["shop"]; CreateDump;
      HandleSize [Byte.x53; Byte.x51; Byte.x4c]])
  /\ result (handle env Demo.options) (Demo.dir []) = Ok tt
  /\ count write_event (trace (handle env Demo.options) (Demo.dir [])) = 2%nat.
Proof. repeat split; vm_compute; reflexivity. Qed.

(** ** Counting dumps and writes *)

Lemma count_app (p : event -> bool) (t1 t2 : list event) :
  count p (t1 ++ t2) = (count p t1 + count p t2)%nat.
Proof.
  unfold count. now rewrite filter_app, length_app.
Qed.

Lemma count_none (p : event -> bool) (t : list event) :
  (forall ev, In ev t -> p ev = false) -> count p t = 0%nat.
Proof.
  unfold count. induction t as [| ev t IH]; cbn; [reflexivity |].
  intros H. rewrite (H ev) by now left. apply IH. intros; apply H. now right.
Qed.

(** How a sequence has returned. *)
Lemma bind_ok_inv {World A B : Type} (m : M World A) (k : A -> M World B)
    (w w2 : World) (b : B) (t : list event) :
  bind m k w = (Ok b, w2, t) ->
  exists a w1 t1 t2,
    m w = (Ok a, w1, t1) /\ k a w1 = (Ok b, w2, t2) /\ t = t1 ++ t2.
Proof.
  unfold bind.
  destruct (m w) as [[[a | e] w1] t1]; [| discriminate].
  destruct (k a w1) as [[r w2'] t2] eqn:Hk.
  intros [= -> -> <-]. now exists a, w1, t1, t2.
Qed.

Section CountFacts.
Context {World : Type} (env : Env World).

(** A save that returns has asked for the name, dumped once and written
    once. *)
Lemma save_ok_counts (self : Self.t World) (database : Database)
    (w w' : World) (t : list event) :
  _save_new_backup env self database w = (Ok tt, w', t) ->
  count dump_event t = 1%nat /\ count write_event t = 1%nat /\
  exists name w0 dump w1,
    DBCommandsT.filename (Self.dbcommands self) (Self.servername self) w
      = (Ok name, w0) /\
    Connector.create_dump (Self.connector self) w0 = (Ok dump, w1).
Proof.
  rewrite save_spec.
  destruct (DBCommandsT.filename _ _ w) as [[name | e] w0] eqn:Hn;
    [| discriminate].
  destruct (Connector.create_dump _ w0) as [[dump | e] w1] eqn:Hd;
    [| discriminate].
  pose proof (transform_stage_events env self dump name w1) as Htr.
  unfold trace in Htr.
  destruct (transform env self dump name w1) as [[[[o f] | e] w2] tr];
    [| discriminate].
  cbn [snd] in Htr.
  pose proof (log_size_events env self o w2) as Hls.
  unfold trace in Hls.
  destruct (log_size env self o w2) as [[[[] | e] w3] tl]; [| discriminate].
  cbn [snd] in Hls. rewrite store_spec.
  assert (Hb : forall p, p = dump_event \/ p = write_event ->
                         count p (backing_up_log self database) = 0%nat).
  { intros p Hp. unfold backing_up_log.
    destruct (Self.quiet self), Hp as [-> | ->]; reflexivity. }
  assert (Hs : forall p, p = dump_event \/ p = write_event ->
                         count p tr = 0%nat /\ count p tl = 0%nat).
  { intros p Hp. split; apply count_none; intros ev Hev.
    - destruct (Htr _ Hev) as (i & n & [-> | ->]); destruct Hp as [-> | ->];
        reflexivity.
    - destruct (Hls _ Hev) as [-> | (fmt & args & ->)];
        destruct Hp as [-> | ->]; reflexivity. }
  assert (Hall : forall last,
             count dump_event last = 0%nat -> count write_event last = 1%nat ->
             count dump_event
               (backing_up_log self database ++ [CreateDump] ++ tr
                  ++ tl ++ last) = 1%nat /\
             count write_event
               (backing_up_log self database ++ [CreateDump] ++ tr
                  ++ tl ++ last) = 1%nat).
  { intros last Hdl Hwl. rewrite !count_app.
    destruct (Hs dump_event) as [H1 H1'], (Hs write_event) as [H2 H2']; auto.
    rewrite !Hb, H1, H1', H2, H2', Hdl, Hwl by auto. split; reflexivity. }
  assert (Hex : exists name' w0' dump' w1',
             (Ok name, w0) = (Ok name', w0') /\
             Connector.create_dump (Self.connector self) w0' = (Ok dump', w1')).
  { exists name, w0, dump, w1. split; [reflexivity | exact Hd]. }
  destruct (Self.path self) as [path |].
  - destruct (copy_to_path env o path w3) as [r w4].
    intros [= -> -> <-].
    destruct (Hall [LogInfo "Writing file to %s" [path]; WriteLocalFile o path])
      as [Hc1 Hc2]; try reflexivity.
    auto.
  - destruct (Storage.write_file _ _ _ w3) as [r w4].
    intros [= -> -> <-].
    destruct (Hall [LogInfo "Writing file to %s: %s, filename: %s"
                      [Storage.name (Self.storage self);
                       Storage.backup_dir (Self.storage self);
                       if_else (Self.filename self) (fun s => s) f];
                    WriteFile o (if_else (Self.filename self) (fun s => s) f)])
      as [Hc1 Hc2]; try reflexivity.
    auto.
Qed.

(** A cleanup pass neither dumps nor writes. *)
Lemma cleanup_counts (self : Self.t World) (database : Database) (w : World) :
  count dump_event (trace (_cleanup_old_backups env self database) w) = 0%nat /\
  count write_event (trace (_cleanup_old_backups env self database) w) = 0%nat.
Proof.
  split; apply count_none; intros ev Hev; apply cleanup_events in Hev;
    destruct Hev as [(fmt & args & ->) | [-> | (f & ->)]]; reflexivity.
Qed.

(** A turn of the loop that returns is a [turn]. *)
Lemma handle_database_ok_turn (options : Options.t) (database_key : string)
    (w w' : World) (t : list event) :
  handle_database env options database_key w = (Ok tt, w', t) ->
  turn env options database_key w t w'.
Proof.
  intros Hrun. pose proof Hrun as Hrun'. revert Hrun'.
  destruct (lookup database_key (settings_DATABASES env)) as [db |] eqn:Hdb.
  2: { rewrite handle_database_missing by assumption. discriminate. }
  rewrite (handle_database_spec env options _ _ _ Hdb). cbv zeta.
  rewrite try_except_StorageError.
  set (self := configure env options database_key db).
  destruct ((_save_new_backup env self db ;; _) w) as [[[[] | e] w1] t1] eqn:Hb;
    [| discriminate].
  intros [= -> ->].
  apply bind_ok_inv in Hb.
  destruct Hb as ([] & w2 & ts & tc & Hsave & Hclean & ->).
  destruct (save_ok_counts _ _ _ _ _ Hsave) as (Hd & Hw & Hdump).
  exists db. split; [exact Hdb |]. split; [exact Hrun |].
  rewrite !count_app, Hd, Hw.
  assert (Hc : count dump_event tc = 0%nat /\ count write_event tc = 0%nat).
  { unfold when in Hclean. destruct (Self.clean self).
    - destruct (cleanup_counts self db w2) as [Hcd Hcw].
      unfold trace in Hcd, Hcw. rewrite Hclean in Hcd, Hcw.
      cbn [snd] in Hcd, Hcw. now split.
    - unfold ret in Hclean. injection Hclean as _ <-. split; reflexivity. }
  destruct Hc as [-> ->]. split; [reflexivity |]. split; [reflexivity |].
  exact Hdump.
Qed.

(** A loop over database keys that returns is made of their turns. *)
Lemma for_each_ok_turns (options : Options.t) (keys : list string)
    (w w' : World) (t : list event) :
  for_each keys (handle_database env options) w = (Ok tt, w', t) ->
  exists segs, t = List.concat segs /\ turns env options keys w segs w'.
Proof.
  revert w t. induction keys as [| key keys IH]; intros w t; cbn [for_each].
  - unfold ret. intros [= <- <-]. exists []. split; reflexivity.
  - intros H. apply bind_ok_inv in H.
    destruct H as ([] & w1 & t1 & t2 & Hx & Hl & ->).
    destruct (IH _ _ Hl) as (segs & -> & Hsegs).
    exists (t1 :: segs). split; [reflexivity |].
    cbn [turns]. exists w1. split; [| exact Hsegs].
    apply handle_database_ok_turn. exact Hx.
Qed.

(** Turns hold one dump and one write each. *)
Lemma turns_count (options : Options.t) (keys : list string)
    (segs : list (list event)) (w w' : World) :
  turns env options keys w segs w' ->
  count dump_event (List.concat segs) = List.length keys /\
  count write_event (List.concat segs) = List.length keys.
Proof.
  revert w segs. induction keys as [| key keys IH]; intros w [| seg segs];
    cbn [turns]; try contradiction.
  - intros _. split; reflexivity.
  - intros (w1 & (db & _ & _ & Hd & Hw & _) & Hrest).
    destruct (IH _ _ Hrest) as [IHd IHw].
    cbn [List.concat List.length].
    now rewrite !count_app, Hd, Hw, IHd, IHw.
Qed.

End CountFacts.

(** X13.  A run that returns normally is, turn after turn in the order of
    the database keys, one returned turn of the loop per key, each turn
    starting in the world that the turn before it has left: in the turn of
    a key, the name is asked from the dbcommands object of that key's
    database, [create_dump] is called once, on the connector of that key,
    and one write is made.  In total the run holds as many dumps and as
    many writes as there are keys. *)
Theorem one_dump_and_one_write_per_database {World : Type} (env : Env World)
    (options : Options.t) (w w' : World) (t : list event) :
  handle env options w = (Ok tt, w', t) ->
  (exists segs,
      t = List.concat segs /\
      turns env options (database_keys env options) w segs w')
  /\ count dump_event t = List.length (database_keys env options)
  /\ count write_event t = List.length (database_keys env options).
Proof.
  unfold handle. intros Hrun.
  apply for_each_ok_turns in Hrun.
  destruct Hrun as (segs & -> & Hturns).
  split; [now exists segs |].
  eapply turns_count. exact Hturns.
Qed.

Lemma one_dump_and_one_write_per_database_witness :
  let t := [CreateDump;
            LogInfo "Writing file to %s: %s, filename: %s"
              ["memory"; "/backups"; "shop-2023-03-06.sql"];
            WriteFile [Byte.x53; Byte.x51; Byte.x4c] "shop-2023-03-06.sql";
            LogInfo "Cleaning Old Backups for: %s" ["shop"]; ListDirectory;
            CreateDump;
            LogInfo "Writing file to %s: %s, filename: %s"
              ["memory"; "/backups"; "logs-2023-03-06.sql"];
            WriteFile [Byte.x53; Byte.x51; Byte.x4c] "logs-2023-03-06.sql";
            LogInfo "Cleaning Old Backups for: %s" ["logs"]; ListDirectory] in
  (exists segs,
      t = List.concat segs /\
      turns (Demo.env 1) Demo.options
        (database_keys (Demo.env 1) Demo.options) (Demo.dir []) segs
        (Demo.dir ["shop-2023-03-06.sql"; "logs-2023-03-06.sql"]))
  /\ count dump_event t = List.length (database_keys (Demo.env 1) Demo.options)
  /\ count write_event t = List.length (database_keys (Demo.env 1) Demo.options).
Proof.
  intros t.
  apply (one_dump_and_one_write_per_database (Demo.env 1) Demo.options
           (Demo.dir [])
           (Demo.dir ["shop-2023-03-06.sql"; "logs-2023-03-06.sql"]) t).
  vm_compute. reflexivity.
Defined.

(** ** File paths and engine names *)

Lemma slash_prefix (c : ascii) (rest : string) :
  String.prefix "/" (String c rest) = Ascii.eqb c "/".
Proof.
  change (String.prefix "/" (String c rest))
    with (if Ascii.ascii_dec "/" c then String.prefix "" rest else false).
  destruct (Ascii.ascii_dec "/" c) as [<- | Hc].
  - destruct rest; reflexivity.
  - destruct (Ascii.eqb_spec c "/"); [congruence | reflexivity].
Qed.

Lemma basename_no_slash (name : string) :
  String.index 0 "/" name = None -> Py.basename name = name.
Proof.
  destruct name as [| c rest]; [reflexivity |].
  cbn [Py.basename String.index]. rewrite slash_prefix.
  destruct (Ascii.eqb c "/"); [discriminate |].
  destruct (String.index 0 "/" rest); [discriminate | reflexivity].
Qed.

Lemma index_slash_app (dir name : string) :
  String.index 0 "/" (dir ++ String "/" name) <> None.
Proof.
  induction dir as [| c dir IH]; cbn [append String.index].
  - rewrite slash_prefix. cbn. discriminate.
  - rewrite slash_prefix. destruct (Ascii.eqb c "/"); [discriminate |].
    destruct (String.index 0 "/" (dir ++ String "/" name)); [discriminate |].
    contradiction.
Qed.

Lemma basename_dir (dir name : string) :
  String.index 0 "/" name = None ->
  Py.basename (dir ++ String "/" name) = name.
Proof.
  intros Hname. induction dir as [| c dir IH]; cbn [append Py.basename].
  - cbn. now apply basename_no_slash.
  - destruct (Ascii.eqb c "/"); [exact IH |].
    pose proof (index_slash_app dir name) as Hi.
    destruct (String.index 0 "/" (dir ++ String "/" name)); [exact IH |].
    contradiction.
Qed.

(** X14.  The directory part of a listed path plays no role in recovering
    its timestamp: a path [dir/name], with no slash in [name], parses as
    [name] does. *)
Theorem directory_part_is_ignored {World : Type} (env : Env World)
    (self : Self.t World) (dir name : string) :
  String.index 0 "/" name = None ->
  parse_timestamp env self (dir ++ "/" ++ name)
  = parse_timestamp env self name.
Proof.
  intros Hname. unfold parse_timestamp.
  change (dir ++ "/" ++ name)%string with (dir ++ String "/" name)%string.
  now rewrite basename_dir, basename_no_slash.
Qed.

Lemma directory_part_is_ignored_witness :
  parse_timestamp (Demo.env 1) (Demo.self 1)
    ("/var/backups/2023" ++ "/" ++ "shop-2023-02-20.sql")
  = parse_timestamp (Demo.env 1) (Demo.self 1) "shop-2023-02-20.sql".
Proof.
  apply (directory_part_is_ignored (Demo.env 1) (Demo.self 1)
           "/var/backups/2023" "shop-2023-02-20.sql").
  reflexivity.
Defined.

Lemma prefix_cons (c d : ascii) (s1 s2 : string) :
  String.prefix (String c s1) (String d s2)
  = if Ascii.ascii_dec c d then String.prefix s1 s2 else false.
Proof. reflexivity. Qed.

Lemma prefix_app (s1 s2 : string) :
  String.prefix s1 s2 = true <-> exists post, s2 = (s1 ++ post)%string.
Proof.
  revert s2. induction s1 as [| c s1 IH]; intros s2.
  - split; [intros _; now exists s2 |]. intros _. now destruct s2.
  - destruct s2 as [| d s2].
    + split; [discriminate | intros [post H]; discriminate H].
    + rewrite prefix_cons. destruct (Ascii.ascii_dec c d) as [-> | Hcd].
      * rewrite IH. split; intros [post H]; exists post; cbn in *; congruence.
      * split; [discriminate | intros [post H]; cbn in H; congruence].
Qed.

(** [needle in hay] holds exactly when [hay] has [needle] somewhere in it. *)
Lemma contains_spec (needle hay : string) :
  Py.contains needle hay = true <->
  exists pre post, hay = (pre ++ needle ++ post)%string.
Proof.
  induction hay as [| c hay IH]; cbn [Py.contains].
  - rewrite orb_false_r, prefix_app. split.
    + intros [post H]. now exists ""%string, post.
    + intros (pre & post & H). destruct pre; [now exists post |].
      discriminate H.
  - rewrite orb_true_iff, prefix_app, IH. split.
    + intros [[post H] | (pre & post & H)].
      * now exists ""%string, post.
      * exists (String c pre), post. cbn. now rewrite H.
    + intros (pre & post & H). destruct pre as [| d pre].
      * left. now exists post.
      * right. cbn in H. injection H as _ H. now exists pre, post.
Qed.

(** X15.  A database is handled with [MongoDBCommands] exactly when its
    [ENGINE] has the text "mongo" somewhere in it, and with [DBCommands]
    otherwise. *)
Theorem mongo_engine_selects_MongoDBCommands {World : Type} (env : Env World)
    (options : Options.t) (database_key : string) (database : Database) :
  ((exists pre post, ENGINE database = (pre ++ "mongo" ++ post)%string) ->
   Self.dbcommands (configure env options database_key database)
   = MongoDBCommands env database)
  /\ (~ (exists pre post, ENGINE database = (pre ++ "mongo" ++ post)%string) ->
      Self.dbcommands (configure env options database_key database)
      = DBCommands env database).
Proof.
  cbn [Self.dbcommands configure].
  pose proof (contains_spec "mongo" (ENGINE database)) as H.
  destruct (Py.contains "mongo" (ENGINE database)).
  - split; [reflexivity |]. intros Hn. exfalso. apply Hn, H. reflexivity.
  - split; [| reflexivity]. intros He. apply H in He. discriminate.
Qed.

Lemma mongo_engine_selects_MongoDBCommands_witness :
  Self.dbcommands
    (configure (Demo.env 1) Demo.options "events"
       {| NAME := "logs"; ENGINE := "django_mongodb_engine" |})
  = MongoDBCommands (Demo.env 1)
      {| NAME := "logs"; ENGINE := "django_mongodb_engine" |}.
Proof.
  apply (proj1 (mongo_engine_selects_MongoDBCommands (Demo.env 1) Demo.options
                  "events"
                  {| NAME := "logs"; ENGINE := "django_mongodb_engine" |})).
  exists "django_"%string, "db_engine"%string. reflexivity.
Defined.

(** ** Stages and the protected tail *)

(** X16.  A stage that is not enabled is never called.  When
    [compress_file] is called, [compress] is set and the call receives the
    dump as [create_dump] returned it, under the name [dbcommands.filename]
    returned; when [encrypt_file] is called, [encrypt] is set. *)
Theorem stages_follow_flags {World : Type} (env : Env World)
    (self : Self.t World) (database : Database) (w : World)
    (inputfile : stream) (filename : string) :
  (In (CompressFile inputfile filename)
      (trace (_save_new_backup env self database) w) ->
   Self.compress self = true /\
   exists w0 w1,
     DBCommandsT.filename (Self.dbcommands self) (Self.servername self) w
       = (Ok filename, w0) /\
     Connector.create_dump (Self.connector self) w0 = (Ok inputfile, w1))
  /\ (In (EncryptFile inputfile filename)
         (trace (_save_new_backup env self database) w) ->
      Self.encrypt self = true).
Proof.
  assert (Htr : forall dump name w1,
             (In (CompressFile inputfile filename)
                 (trace (transform env self dump name) w1) ->
              Self.compress self = true /\ inputfile = dump /\ filename = name)
             /\ (In (EncryptFile inputfile filename)
                    (trace (transform env self dump name) w1) ->
                 Self.encrypt self = true)).
  { intros dump name w1.
    unfold trace, transform, compress_file, encrypt_file, bind, call, ret.
    destruct (Self.compress self), (Self.encrypt self); cbn;
      repeat match goal with
             | |- context [compress_stream env ?o ?w] =>
                 destruct (compress_stream env o w) as [[? | ?] ?]; cbn
             | |- context [encrypt_stream env ?o ?w] =>
                 destruct (encrypt_stream env o w) as [[? | ?] ?]; cbn
             end;
      split; intros H;
      repeat match goal with
             | H : _ \/ _ |- _ => destruct H as [H | H]
             | H : False |- _ => destruct H
             end;
      try discriminate; try (injection H as <- <-); auto. }
  assert (Hother : forall ev,
             (exists i n, ev = CompressFile i n \/ ev = EncryptFile i n) ->
             In ev (trace (_save_new_backup env self database) w) ->
             exists name w0 dump w1,
               DBCommandsT.filename (Self.dbcommands self)
                 (Self.servername self) w = (Ok name, w0) /\
               Connector.create_dump (Self.connector self) w0 = (Ok dump, w1) /\
               In ev (trace (transform env self dump name) w1)).
  { intros ev Hev H. apply save_event_inv in H.
    destruct H as [H | [-> | (name & w0 & Hn & dump & w1 & Hd & [H | H])]].
    - unfold backing_up_log in H. destruct (Self.quiet self); [destruct H |].
      destruct H as [<- | []]. destruct Hev as (i & n & [? | ?]); discriminate.
    - destruct Hev as (i & n & [? | ?]); discriminate.
    - now exists name, w0, dump, w1.
    - exfalso.
      destruct H as (o & f & w2 & tr & _ & [H | (w3 & tl & _ & H)]).
      + apply log_size_events in H.
        destruct H as [-> | (fmt & args & ->)];
          destruct Hev as (i & n & [? | ?]); discriminate.
      + unfold trace in H. rewrite store_spec in H.
        destruct (Self.path self) as [path |].
        * destruct (copy_to_path env o path w3) as [r w4]. cbn in H.
          destruct H as [<- | [<- | []]];
            destruct Hev as (i & n & [? | ?]); discriminate.
        * destruct (Storage.write_file _ _ _ w3) as [r w4]. cbn in H.
          destruct H as [<- | [<- | []]];
            destruct Hev as (i & n & [? | ?]); discriminate. }
  split; intros H.
  - destruct (Hother _ (ex_intro _ inputfile (ex_intro _ filename
                          (or_introl eq_refl))) H)
      as (name & w0 & dump & w1 & Hn & Hd & Hin).
    destruct (proj1 (Htr dump name w1) Hin) as (Hc & -> & ->).
    split; [exact Hc |]. now exists w0, w1.
  - destruct (Hother _ (ex_intro _ inputfile (ex_intro _ filename
                          (or_intror eq_refl))) H)
      as (name & w0 & dump & w1 & _ & _ & Hin).
    exact (proj2 (Htr dump name w1) Hin).
Qed.

Lemma stages_follow_flags_witness :
  let options :=
    {| Options.verbosity := 1; Options.quiet := true; Options.clean := false;
       Options.database := None; Options.servername := None;
       Options.compress := true; Options.encrypt := false;
       Options.output_filename := None; Options.output_path := None |} in
  let self := configure (Demo.env 1) options "default" Demo.shop in
  Self.compress self = true /\
  exists w0 w1,
    DBCommandsT.filename (Self.dbcommands self) (Self.servername self)
      (Demo.dir []) = (Ok "shop-2023-03-06.sql", w0) /\
    Connector.create_dump (Self.connector self) w0
    = (Ok [Byte.x53; Byte.x51; Byte.x4c], w1).
Proof.
  intros options self.
  apply (proj1 (stages_follow_flags (Demo.env 1) self Demo.shop (Demo.dir [])
                  [Byte.x53; Byte.x51; Byte.x4c] "shop-2023-03-06.sql")).
  vm_compute. tauto.
Defined.

Lemma NoDup_app_disjoint {A : Type} (l1 l2 : list A) (x : A) :
  NoDup (l1 ++ l2) -> In x l1 -> ~ In x l2.
Proof.
  induction l1 as [| a l1 IH]; cbn; [intros _ [] |].
  intros Hnd [-> | Hx] Hx2; inversion Hnd as [| ? ? Ha Hrest]; subst.
  - apply Ha, in_or_app. now right.
  - exact (IH Hrest Hx Hx2).
Qed.

(** X17.  With a keep count [K] of at least one and pairwise distinct
    recognised names, the last [K] entries of the filtered listing, in the
    order the storage returned them, are never deleted. *)
Theorem listing_tail_is_kept {World : Type} (env : Env World)
    (self : Self.t World) (database : Database) (w w1 : World)
    (listing : list string) (f : string) :
  (1 <= Self.clean_keep self)%Z ->
  Storage.list_directory (Self.storage self) w = (Ok listing, w1) ->
  let filepaths :=
    DBCommandsT.filter_filepaths (Self.dbcommands self) listing in
  NoDup filepaths ->
  In f (skipn (List.length filepaths - Z.to_nat (Self.clean_keep self))
          filepaths) ->
  ~ In (DeleteFile f) (trace (_cleanup_old_backups env self database) w).
Proof.
  intros Hk Hlist filepaths Hnd Htail Hdel.
  destruct (cleanup_protects_listing_tail env self database w f Hk Hdel)
    as (listing' & w1' & Hlist' & Hhead).
  rewrite Hlist in Hlist'. injection Hlist' as <- <-.
  cbv zeta in Hhead. fold filepaths in Hhead.
  set (n := (List.length filepaths - Z.to_nat (Self.clean_keep self))%nat) in *.
  rewrite <- (firstn_skipn n filepaths) in Hnd.
  exact (NoDup_app_disjoint _ _ f Hnd Hhead Htail).
Qed.

Lemma listing_tail_is_kept_witness :
  ~ In (DeleteFile "shop-2023-01-15.sql")
       (trace (_cleanup_old_backups (Demo.env 1) (Demo.self 1) Demo.shop)
          (Demo.dir ["shop-2023-03-05.sql"; "shop-2023-02-20.sql";
                     "shop-2023-01-15.sql"])).
Proof.
  apply (listing_tail_is_kept (Demo.env 1) (Demo.self 1) Demo.shop
           _ (Demo.dir ["shop-2023-03-05.sql"; "shop-2023-02-20.sql";
                        "shop-2023-01-15.sql"])
           ["shop-2023-03-05.sql"; "shop-2023-02-20.sql";
            "shop-2023-01-15.sql"]).
  - cbn. lia.
  - reflexivity.
  - vm_compute. repeat constructor; cbn; intuition discriminate.
  - vm_compute. tauto.
Defined.
